(** * ProjectMonitor: the deadline evaluation engine

    A shallow embedding of the module [src.data.models] (the entities
    [Milestone] and [Project] with their derived properties and the
    construction-time validator) and of [src.logic.deadline_checker] (the class
    [DeadlineChecker]: [check_project], [_calculate_severity] and
    [batch_check]), of [src.integrations.notifier] (the class [Notifier]) and
    of the two field parsers of [src.data.sharepoint_client], followed by
    the properties of the engine, of the notifier and of the parsers.

    Conventions of the embedding.
    - A [datetime.date] is its proleptic Gregorian ordinal ([date.toordinal()]),
      an integer; the difference of two dates, [(a - b).days], is the
      difference of the ordinals.
    - [date.today()] is an explicit argument [today] of every definition that
      reads the clock: one evaluation sees one calendar day.
    - Python exceptions are values of the type [exn]; a computation that may
      raise returns a [result].
    - A [str] is the Rocq string of its UTF-8 bytes. *)

From Stdlib Require Import ZArith Lia Ascii.
From stdpp Require Import base decidable option list strings pretty gmap fin_maps.

Local Open Scope string_scope.
Local Open Scope list_scope.
Local Open Scope Z_scope.

(** ** Exceptions *)

Inductive exn : Type :=
  | KeyError (key : string)
  | ValueError (msg : string).

Inductive result (A : Type) : Type :=
  | Ok (a : A)
  | Raise (e : exn).
Arguments Ok {A} a.
Arguments Raise {A} e.

#[global] Instance result_ret : MRet result := fun A a => Ok a.
#[global] Instance result_bind : MBind result := fun A B f r =>
  match r with
  | Ok a => f a
  | Raise e => Raise e
  end.

(** [d[k]] on a dictionary with string keys: [KeyError] on a missing key. *)
Definition getitem {V : Type} (d : gmap string V) (k : string) : result V :=
  match d !! k with
  | Some v => Ok v
  | None => Raise (KeyError k)
  end.

(** ** Dates *)

Definition date : Type := Z.

(** [str(d)] of a [datetime.date], which is [d.isoformat()]: YYYY-MM-DD. *)
Module Date.

Definition zfill (width : nat) (s : string) : string :=
  String.concat "" (replicate (width - String.length s)%nat "0") +:+ s.

(** Year, month and day of an ordinal (day 1 is 0001-01-01). *)
Definition civil (d : date) : Z * Z * Z :=
  let z := d + 305 in
  let era := z / 146097 in
  let doe := z - era * 146097 in
  let yoe := (doe - doe / 1460 + doe / 36524 - doe / 146096) / 365 in
  let doy := doe - (365 * yoe + yoe / 4 - yoe / 100) in
  let mp := (5 * doy + 2) / 153 in
  let day := doy - (153 * mp + 2) / 5 + 1 in
  let month := if bool_decide (mp < 10) then mp + 3 else mp - 9 in
  let year := yoe + era * 400 + (if bool_decide (month <= 2) then 1 else 0) in
  (year, month, day).

Definition isoformat (d : date) : string :=
  let '(year, month, day) := civil d in
  zfill 4 (pretty year) +:+ "-" +:+ zfill 2 (pretty month) +:+ "-" +:+ zfill 2 (pretty day).

End Date.

(** ** models.py *)

Inductive ProjectStatus : Type :=
  | PLANEJAMENTO
  | EM_ANDAMENTO
  | CONCLUIDO
  | PARALISADO
  | CANCELADO.

#[global] Instance ProjectStatus_eq_dec : EqDecision ProjectStatus.
Proof. solve_decision. Defined.

Inductive RiskLevel : Type :=
  | BAIXO
  | MEDIO
  | ALTO
  | CRITICO.

#[global] Instance RiskLevel_eq_dec : EqDecision RiskLevel.
Proof. solve_decision. Defined.

Module Milestone.

Record t : Type := new {
  id : string;
  title : string;
  expected_date : date;
  actual_date : option date;   (* Optional[date] = None *)
  status : string              (* "pendente", "concluido", "atrasado" *)
}.

(** The test [self.actual_date or self.status == "concluido"]: a [date]
    object is always truthy, so [self.actual_date] is false exactly on
    [None]. *)
Definition closed (m : t) : bool :=
  bool_decide (is_Some (actual_date m)) || bool_decide (status m = "concluido").

Definition is_overdue (today : date) (m : t) : bool :=
  if closed m then false
  else bool_decide (today > expected_date m).

Definition days_until (today : date) (m : t) : option Z :=
  if closed m then None
  else Some (expected_date m - today).

End Milestone.

(** [ProjectUpdate]: carried by a project, never read by the engine. A
    [datetime] is kept as an opaque integer timestamp. *)
Module ProjectUpdate.

Record t : Type := new {
  id : string;
  project_id : string;
  timestamp : Z;
  source : string;
  title : string;
  description : string;
  category : string;
  url : option string;
  attachments : list string
}.

End ProjectUpdate.

Module Project.

Record t : Type := mk {
  id : string;
  name : string;
  description : option string;
  area_responsavel : string;
  responsible_team : list string;
  status : ProjectStatus;
  risk_level : RiskLevel;
  start_date : date;
  expected_end_date : date;
  milestones : list Milestone.t;
  created_at : Z;
  last_updated : Z;
  tags : list string;
  recent_updates : list ProjectUpdate.t
}.

Definition days_until_deadline (today : date) (p : t) : option Z :=
  if bool_decide (status p = CONCLUIDO) then None
  else Some (expected_end_date p - today).

(** [any(m.is_overdue for m in self.milestones)] *)
Definition any_overdue (today : date) (ms : list Milestone.t) : bool :=
  existsb (Milestone.is_overdue today) ms.

Definition is_at_risk (today : date) (p : t) : bool :=
  match days_until_deadline today p with
  | Some d =>
      if bool_decide (d <= 15) then true
      else any_overdue today (milestones p)
  | None => any_overdue today (milestones p)
  end.

(** The field validator of [expected_end_date]. [data_start_date] is
    [values.data.get('start_date')]: the fields validated before this one,
    of which the validator reads only [start_date]. *)
Definition end_must_be_after_start (v : date) (data_start_date : option date)
  : result date :=
  match data_start_date with
  | Some start =>
      if bool_decide (v < start)
      then Raise (ValueError "Data de término deve ser após data de início")
      else Ok v
  | None => Ok v
  end.

(** The constructor call of [Project] on typed field values, given as a
    record of the same shape: the fields are validated in declaration order, so
    [start_date] is in [values.data] when the validator of
    [expected_end_date] runs, and the value the validator returns is the value
    of the field. *)
Definition new (fields : t) : result t :=
  v ← end_must_be_after_start (expected_end_date fields) (Some (start_date fields));
  Ok (mk (id fields) (name fields) (description fields) (area_responsavel fields)
        (responsible_team fields) (status fields) (risk_level fields)
        (start_date fields) v (milestones fields) (created_at fields)
        (last_updated fields) (tags fields) (recent_updates fields)).

(** The same project with another start date. *)
Definition with_start_date (start : date) (p : t) : t :=
  mk (id p) (name p) (description p) (area_responsavel p) (responsible_team p)
    (status p) (risk_level p) start (expected_end_date p) (milestones p)
    (created_at p) (last_updated p) (tags p) (recent_updates p).

End Project.

(** ** deadline_checker.py *)

(** An alert: the dictionary literal that [check_project] appends, always
    with the same five keys. *)
Module Alert.

Record t : Type := mk {
  type : string;
  target : string;
  days : Z;
  severity : string;
  message : string
}.

End Alert.

(** The result of [batch_check]. *)
Module Report.

Record t : Type := mk {
  total_projects : nat;
  projects_at_risk : nat;
  alerts_by_severity : gmap string (list Alert.t);
  all_alerts : list Alert.t;
  generated_at : string
}.

End Report.

Module DeadlineChecker.

Definition ALERT_THRESHOLDS : gmap string (list Z) :=
  <["milestone" := [30; 15; 7; 3]]>
  (<["project_deadline" := [60; 30; 15; 7]]> ∅).

(** [_calculate_severity]: [thresholds] is looked up and never used. *)
Definition _calculate_severity (days : Z) (alert_type : string) : string :=
  let thresholds := default [30; 15; 7] (ALERT_THRESHOLDS !! alert_type) in
  if bool_decide (days <= 7) then "CRITICO"
  else if bool_decide (days <= 15) then "ALTO"
  else if bool_decide (days <= 30) then "MEDIO"
  else "BAIXO".

(** The three dictionary literals of [check_project]. *)
Definition project_deadline_alert (project : Project.t) (days : Z) : Alert.t :=
  {| Alert.type := "project_deadline";
     Alert.target := Project.name project;
     Alert.days := days;
     Alert.severity := _calculate_severity days "project";
     Alert.message :=
       "Projeto '" +:+ Project.name project +:+ "' vence em " +:+ pretty days
       +:+ " dias (" +:+ Date.isoformat (Project.expected_end_date project) +:+ ")" |}.

Definition milestone_overdue_alert (project : Project.t) (milestone : Milestone.t)
    (days : Z) : Alert.t :=
  {| Alert.type := "milestone_overdue";
     Alert.target := Project.name project +:+ " > " +:+ Milestone.title milestone;
     Alert.days := Z.abs days;
     Alert.severity := "CRITICO";
     Alert.message :=
       "⚠️ MARCO ATRASADO: '" +:+ Milestone.title milestone +:+ "' estava para "
       +:+ Date.isoformat (Milestone.expected_date milestone) +:+ " ("
       +:+ pretty (Z.abs days) +:+ " dias de atraso)" |}.

Definition milestone_approaching_alert (project : Project.t) (milestone : Milestone.t)
    (days : Z) : Alert.t :=
  {| Alert.type := "milestone_approaching";
     Alert.target := Project.name project +:+ " > " +:+ Milestone.title milestone;
     Alert.days := days;
     Alert.severity := _calculate_severity days "milestone";
     Alert.message :=
       "Marco '" +:+ Milestone.title milestone +:+ "' em " +:+ Project.name project
       +:+ " vence em " +:+ pretty days +:+ " dias" |}.

(** [for threshold in thresholds: if days == threshold: alerts.append(alert); break],
    the shape of both threshold loops of [check_project]; [alert] is the
    dictionary the loop builds on a match. *)
Fixpoint threshold_loop (days : Z) (alert : Alert.t) (thresholds : list Z)
    (alerts : list Alert.t) : list Alert.t :=
  match thresholds with
  | [] => alerts
  | threshold :: rest =>
      if bool_decide (days = threshold) then alerts ++ [alert]
      else threshold_loop days alert rest alerts
  end.

(** Step 1 of [check_project]: the final deadline of the project. *)
Definition check_deadline (today : date) (project : Project.t)
    (alerts : list Alert.t) : result (list Alert.t) :=
  if bool_decide (Project.status project ≠ CONCLUIDO) then
    match Project.days_until_deadline today project with
    | Some days =>
        thresholds ← getitem ALERT_THRESHOLDS "project_deadline";
        Ok (threshold_loop days (project_deadline_alert project days) thresholds alerts)
    | None => Ok alerts
    end
  else Ok alerts.

(** The body of the loop over [project.milestones]. *)
Definition check_milestone (today : date) (project : Project.t)
    (milestone : Milestone.t) (alerts : list Alert.t) : result (list Alert.t) :=
  if bool_decide (Milestone.status milestone = "concluido")
     || bool_decide (is_Some (Milestone.actual_date milestone))
  then Ok alerts
  else
    match Milestone.days_until today milestone with
    | None => Ok alerts
    | Some days =>
        if bool_decide (days < 0)
        then Ok (alerts ++ [milestone_overdue_alert project milestone days])
        else
          thresholds ← getitem ALERT_THRESHOLDS "milestone";
          Ok (threshold_loop days (milestone_approaching_alert project milestone days)
                thresholds alerts)
    end.

(** Step 2 of [check_project]: [for milestone in project.milestones]. *)
Fixpoint check_milestones (today : date) (project : Project.t)
    (milestones : list Milestone.t) (alerts : list Alert.t) : result (list Alert.t) :=
  match milestones with
  | [] => Ok alerts
  | milestone :: rest =>
      alerts ← check_milestone today project milestone alerts;
      check_milestones today project rest alerts
  end.

Definition check_project (today : date) (project : Project.t) : result (list Alert.t) :=
  let alerts := [] in
  alerts ← check_deadline today project alerts;
  check_milestones today project (Project.milestones project) alerts.

(** Truth value of a list: [if alerts]. *)
Definition truthy {A : Type} (l : list A) : bool :=
  match l with
  | [] => false
  | _ :: _ => true
  end.

(** First loop of [batch_check]: [for project in projects]. *)
Fixpoint collect (today : date) (projects : list Project.t)
    (all_alerts : list Alert.t) (risk_count : nat) : result (list Alert.t * nat) :=
  match projects with
  | [] => Ok (all_alerts, risk_count)
  | project :: rest =>
      alerts ← check_project today project;
      let risk_count :=
        if truthy alerts || Project.is_at_risk today project
        then S risk_count else risk_count in
      collect today rest (all_alerts ++ alerts) risk_count
  end.

(** Second loop of [batch_check]:
    [by_severity[alert['severity']].append(alert)]. *)
Fixpoint group (all_alerts : list Alert.t) (by_severity : gmap string (list Alert.t))
    : result (gmap string (list Alert.t)) :=
  match all_alerts with
  | [] => Ok by_severity
  | alert :: rest =>
      bucket ← getitem by_severity (Alert.severity alert);
      group rest (<[Alert.severity alert := bucket ++ [alert]]> by_severity)
  end.

Definition batch_check (today : date) (projects : list Project.t) : result Report.t :=
  let all_alerts := [] in
  let risk_count := 0%nat in
  '(all_alerts, risk_count) ← collect today projects all_alerts risk_count;
  let by_severity : gmap string (list Alert.t) :=
    <["CRITICO" := []]> (<["ALTO" := []]> (<["MEDIO" := []]> (<["BAIXO" := []]> ∅))) in
  by_severity ← group all_alerts by_severity;
  Ok {| Report.total_projects := length projects;
        Report.projects_at_risk := risk_count;
        Report.alerts_by_severity := by_severity;
        Report.all_alerts := all_alerts;
        Report.generated_at := Date.isoformat today |}.

End DeadlineChecker.

(** The alerts [check_project] returns, as a list ([check_project_total]
    below shows that [check_project] never raises). *)
Definition alerts_of (today : date) (project : Project.t) : list Alert.t :=
  match DeadlineChecker.check_project today project with
  | Ok alerts => alerts
  | Raise _ => []
  end.

(** The alerts step 1 of [check_project] appends for the deadline of the
    project, and those the loop body appends for one milestone. *)
Definition deadline_alerts (today : date) (project : Project.t) : list Alert.t :=
  match DeadlineChecker.check_deadline today project [] with
  | Ok alerts => alerts
  | Raise _ => []
  end.

Definition milestone_alerts (today : date) (project : Project.t)
    (milestone : Milestone.t) : list Alert.t :=
  match DeadlineChecker.check_milestone today project milestone [] with
  | Ok alerts => alerts
  | Raise _ => []
  end.

(** The keys of [by_severity]. *)
Definition SEVERITIES : list string := ["CRITICO"; "ALTO"; "MEDIO"; "BAIXO"].

(** The values of the key ['type']. *)
Definition KINDS : list string :=
  ["project_deadline"; "milestone_overdue"; "milestone_approaching"].

(** The dictionary [by_severity] of [batch_check] before the grouping loop. *)
Definition initial_buckets : gmap string (list Alert.t) :=
  <["CRITICO" := []]> (<["ALTO" := []]> (<["MEDIO" := []]> (<["BAIXO" := []]> ∅))).

(** Whether [batch_check] counts a project in [risk_count]. *)
Definition counted (today : date) (project : Project.t) : bool :=
  DeadlineChecker.truthy (alerts_of today project) || Project.is_at_risk today project.

(** What is required of an alert: a known kind, a known severity, CRITICO
    for an overdue milestone and the severity of the banding otherwise. *)
Definition alert_ok (alert : Alert.t) : Prop :=
  Alert.type alert ∈ KINDS
  /\ Alert.severity alert ∈ SEVERITIES
  /\ (Alert.type alert = "milestone_overdue" -> Alert.severity alert = "CRITICO")
  /\ (Alert.type alert ≠ "milestone_overdue" ->
      Alert.severity alert
      = DeadlineChecker._calculate_severity (Alert.days alert) (Alert.type alert)).

(** Sample entities, after the fixture of [tests/test_deadline_checker.py]
    read on 2024-01-01 (ordinal 738886): a project started 30 days ago. *)
Definition pending (id title : string) (expected_date : date) : Milestone.t :=
  Milestone.new id title expected_date None "pendente".

Definition sample_project (status : ProjectStatus) (expected_end_date : date)
    (milestones : list Milestone.t) : Project.t :=
  Project.mk "PROJ-001" "Sistema X" None "CGIN" ["team@cgim.gov.br"] status BAIXO
    738856 expected_end_date milestones 0 0 [] [].

Definition requirements : Milestone.t :=
  pending "M1" "Levantamento de requisitos" 738881.

Definition mvp : Milestone.t :=
  pending "M2" "Desenvolvimento MVP" 738893.

Definition fixture : Project.t :=
  sample_project EM_ANDAMENTO 738906 [requirements; mvp].

(** ** notifier.py *)

(** A JSON value, for the card that [_format_teams_message] builds: a Python
    dictionary literal is the list of its items in the order written. *)
#[local] Unset Elimination Schemes.
Inductive json : Type :=
  | JNull
  | JBool (b : bool)
  | JString (s : string)
  | JList (items : list json)
  | JObject (fields : list (string * json)).
#[local] Set Elimination Schemes.

Module Notifier.

(** What [except Exception as e] can catch inside [send_alerts]: the
    [NameError] of a name that the module does not define, and whatever
    [requests.post] raises, kept as its [str(e)]. *)
Inductive exception : Type :=
  | NameError (name : string)
  | RequestException (message : string).

(** [str(e)] *)
Definition str (e : exception) : string :=
  match e with
  | NameError name => "name '" +:+ name +:+ "' is not defined"
  | RequestException message => message
  end.

(** The outcome of [requests.post(url, json=message, ...)]. *)
Inductive post_result : Type :=
  | Response (status_code : Z) (text : string)
  | PostRaises (e : exception).

Record t : Type := mk {
  teams_webhook : option string
}.

(** [__init__]: [self.teams_webhook = teams_webhook or os.getenv("TEAMS_WEBHOOK_URL")];
    [None] and the empty string are false. *)
Definition init (teams_webhook : option string) (environ : gmap string string) : t :=
  match teams_webhook with
  | Some url =>
      if bool_decide (url = "") then mk (environ !! "TEAMS_WEBHOOK_URL")
      else mk (Some url)
  | None => mk (environ !! "TEAMS_WEBHOOK_URL")
  end.

(** [s.split(sep)[0]] for a separator that is not empty: the part of [s]
    before the first occurrence of [sep], all of [s] when there is none. *)
Fixpoint before (sep s : string) : string :=
  if String.prefix sep s then ""
  else
    match s with
    | EmptyString => ""
    | String c rest => String c (before sep rest)
    end.

(** [alert.get('target', 'Desconhecido').split(' > ')[0]]: every alert has
    the key ['target']. *)
Definition project_name (alert : Alert.t) : string :=
  before " > " (Alert.target alert).

(** The body of the grouping loop on the dictionary [alerts_by_project],
    kept as the list of its items in insertion order: a new key is added
    last with the list [[alert]], an old one has [alert] appended. *)
Fixpoint add_alert (proj_name : string) (alert : Alert.t)
    (alerts_by_project : list (string * list Alert.t))
    : list (string * list Alert.t) :=
  match alerts_by_project with
  | [] => [(proj_name, [alert])]
  | (name, alerts) :: rest =>
      if bool_decide (name = proj_name) then (name, alerts ++ [alert]) :: rest
      else (name, alerts) :: add_alert proj_name alert rest
  end.

Fixpoint group_loop (alerts : list Alert.t)
    (alerts_by_project : list (string * list Alert.t))
    : list (string * list Alert.t) :=
  match alerts with
  | [] => alerts_by_project
  | alert :: rest =>
      group_loop rest (add_alert (project_name alert) alert alerts_by_project)
  end.

Definition emoji (severity : string) : string :=
  if bool_decide (severity = "CRITICO") then "🔴"
  else if bool_decide (severity = "ALTO") then "🟡"
  else "🔵".

(** One container of the card, for a project and its alerts. *)
Definition section_of (projects : list Project.t)
    (item : string * list Alert.t) : json :=
  let '(proj_name, alerts) := item in
  let project :=
    List.find (fun p => bool_decide (Project.name p = proj_name)) projects in
  let responsible :=
    match project with
    | Some p => String.concat ", " (Project.responsible_team p)
    | None => "Não informado"
    end in
  let alert_items :=
    map (fun alert =>
           JObject [("type", JString "TextBlock");
                    ("text", JString (emoji (Alert.severity alert) +:+ " "
                                      +:+ Alert.message alert));
                    ("wrap", JBool true);
                    ("size", JString "Small")]) alerts in
  JObject [("type", JString "Container");
           ("items",
            JList ([JObject [("type", JString "TextBlock");
                             ("text", JString ("📁 " +:+ proj_name));
                             ("weight", JString "Bolder");
                             ("size", JString "Medium");
                             ("color", JString "Accent")];
                    JObject [("type", JString "TextBlock");
                             ("text", JString ("Responsável: " +:+ responsible));
                             ("size", JString "Small");
                             ("isSubtle", JBool true)]]
                   ++ alert_items));
           ("style", JString "emphasis");
           ("separator", JBool true)].

(** [_format_teams_message]: the sections are built, then the dictionary
    literal of the card is evaluated; its second text block calls
    [datetime.now()], and the module imports no [datetime]
    ([os], [json], [logging], [requests], [List] and [Project] only), so
    the evaluation stops there with a [NameError]. *)
Definition _format_teams_message
    (alerts_by_project : list (string * list Alert.t))
    (projects : list Project.t) : exception + json :=
  let sections := map (section_of projects) alerts_by_project in
  inl (NameError "datetime").

Record results : Type := mk_results {
  sent : nat;
  failed : nat;
  errors : list string
}.

(** [send_alerts]; [post] is [requests.post] on the webhook and the
    message. *)
Definition send_alerts (self : t) (post : string -> json -> post_result)
    (alerts : list Alert.t) (projects : list Project.t) : results :=
  if negb (DeadlineChecker.truthy alerts) then mk_results 0 0 []
  else
    let results := mk_results 0 0 [] in
    let alerts_by_project := group_loop alerts [] in
    match teams_webhook self with
    | Some url =>
        if bool_decide (url = "")
        then mk_results (sent results) (length alerts)
               (errors results ++ ["Webhook do Teams não configurado"])
        else
          match _format_teams_message alerts_by_project projects with
          | inr message =>
              match post url message with
              | Response status_code text =>
                  if bool_decide (status_code = 200)
                  then mk_results (sent results + length alerts) (failed results)
                         (errors results)
                  else mk_results (sent results) (failed results + length alerts)
                         (errors results
                          ++ ["Teams API: " +:+ pretty status_code +:+ " - " +:+ text])
              | PostRaises e =>
                  mk_results (sent results) (failed results + length alerts)
                    (errors results ++ ["Erro ao enviar para Teams: " +:+ str e])
              end
          | inl e =>
              mk_results (sent results) (failed results + length alerts)
                (errors results ++ ["Erro ao enviar para Teams: " +:+ str e])
          end
    | None =>
        mk_results (sent results) (length alerts)
          (errors results ++ ["Webhook do Teams não configurado"])
    end.

End Notifier.

(** ** sharepoint_client.py: the two field parsers *)

(** Python strings. A [str] is the Rocq string of its UTF-8 bytes, so
    splitting on an ASCII character and replacing one by another are the
    same operations on the bytes, and the whitespace that [str.strip()]
    removes is the characters below, each by its encoding. *)
Module Str.

(** U+0009 to U+000D, U+001C to U+001F and U+0020. *)
Definition space1 (a : ascii) : bool :=
  let a := N_of_ascii a in
  ((9 <=? a) && (a <=? 13) || (28 <=? a) && (a <=? 32))%N.

(** U+0085 and U+00A0. *)
Definition space2 (a b : ascii) : bool :=
  let a := N_of_ascii a in
  let b := N_of_ascii b in
  ((a =? 194) && ((b =? 133) || (b =? 160)))%N.

(** U+1680, U+2000 to U+200A, U+2028, U+2029, U+202F, U+205F and U+3000. *)
Definition space3 (a b c : ascii) : bool :=
  let a := N_of_ascii a in
  let b := N_of_ascii b in
  let c := N_of_ascii c in
  ((a =? 225) && (b =? 154) && (c =? 128)
   || (a =? 226) && (b =? 128)
      && ((128 <=? c) && (c <=? 138) || (c =? 168) || (c =? 169) || (c =? 175))
   || (a =? 226) && (b =? 129) && (c =? 159)
   || (a =? 227) && (b =? 128) && (c =? 128))%N.

(** [s] is one whitespace character. *)
Definition is_space (s : string) : bool :=
  match s with
  | String a EmptyString => space1 a
  | String a (String b EmptyString) => space2 a b
  | String a (String b (String c EmptyString)) => space3 a b c
  | _ => false
  end.

Fixpoint lstrip (s : string) : string :=
  match s with
  | EmptyString => EmptyString
  | String a r1 =>
      if space1 a then lstrip r1
      else
        match r1 with
        | EmptyString => s
        | String b r2 =>
            if space2 a b then lstrip r2
            else
              match r2 with
              | EmptyString => s
              | String c r3 => if space3 a b c then lstrip r3 else s
              end
        end
  end.

(** From the end: a character is dropped when what follows it is dropped
    and it is whitespace. *)
Fixpoint rstrip (s : string) : string :=
  match s with
  | EmptyString => EmptyString
  | String a r =>
      let r' := rstrip r in
      if is_space (String a r') then EmptyString else String a r'
  end.

(** [s.strip()] *)
Definition strip (s : string) : string := lstrip (rstrip s).

(** [s.split(sep)] for a one-character separator: never the empty list. *)
Fixpoint split (sep : ascii) (s : string) : list string :=
  match s with
  | EmptyString => [EmptyString]
  | String c rest =>
      if bool_decide (c = sep) then EmptyString :: split sep rest
      else
        match split sep rest with
        | piece :: pieces => String c piece :: pieces
        | [] => [String c EmptyString]
        end
  end.

(** [s.replace(old, new)] for one-character [old] and [new]. *)
Fixpoint replace (old new : ascii) (s : string) : string :=
  match s with
  | EmptyString => EmptyString
  | String c rest =>
      String (if bool_decide (c = old) then new else c) (replace old new rest)
  end.

(** The string of the bytes given. *)
Definition of_bytes (bytes : list N) : string :=
  String.string_of_list_ascii (map ascii_of_N bytes).

(** [[t.strip() for t in pieces if t.strip()]] *)
Definition stripped_nonempty (pieces : list string) : list string :=
  filter (fun t => t ≠ "") (map strip pieces).

End Str.

Module SharePointClient.

(** [_parse_tags(value)]; [value] is a string or [None]. *)
Definition _parse_tags (value : option string) : list string :=
  match value with
  | None => []
  | Some EmptyString => []
  | Some value => Str.stripped_nonempty (Str.split "," value)
  end.

(** What [_parse_team] is given: [None], a string, or a list, here of
    strings, for which [str(v)] is [v]. *)
Inductive team_value : Type :=
  | TeamNone
  | TeamStr (value : string)
  | TeamList (value : list string).

Definition _parse_team (value : team_value) : list string :=
  match value with
  | TeamNone => []
  | TeamStr EmptyString => []
  | TeamList [] => []
  | TeamList value => value
  | TeamStr value =>
      Str.stripped_nonempty (Str.split "," (Str.replace ";" "," value))
  end.

End SharePointClient.

(** A list seen as a dictionary value that is present only when it is not
    empty. *)
Definition nonempty {A : Type} (l : list A) : option (list A) :=
  match l with
  | [] => None
  | _ :: _ => Some l
  end.

(** A clean field value: not empty, without the separator, without
    whitespace around it. *)
Definition clean (t : string) : Prop :=
  t ≠ "" /\ (","%char ∉ String.list_ascii_of_string t) /\ Str.strip t = t.

(** * Properties *)

(** ** Dates *)

Example isoformat_first_day : Date.isoformat 1 = "0001-01-01".
Proof. vm_compute. reflexivity. Qed.

Example isoformat_new_year : Date.isoformat 738886 = "2024-01-01".
Proof. vm_compute. reflexivity. Qed.

Example isoformat_leap_day : Date.isoformat 738945 = "2024-02-29".
Proof. vm_compute. reflexivity. Qed.

Example isoformat_year_end : Date.isoformat 730485 = "2000-12-31".
Proof. vm_compute. reflexivity. Qed.

Example isoformat_no_leap : Date.isoformat 693655 = "1900-03-01".
Proof. vm_compute. reflexivity. Qed.

Example isoformat_last_day : Date.isoformat 3652059 = "9999-12-31".
Proof. vm_compute. reflexivity. Qed.

Example isoformat_early_leap : Date.isoformat 1155 = "0004-02-29".
Proof. vm_compute. reflexivity. Qed.

(** Membership in a literal list, as a disjunction of equations. *)
Ltac list_mem :=
  repeat match goal with
  | H : context [_ ∈ _ :: _] |- _ => rewrite elem_of_cons in H
  | H : context [_ ∈ []] |- _ => rewrite elem_of_nil in H
  | |- context [_ ∈ _ :: _] => rewrite elem_of_cons
  | |- context [_ ∈ []] => rewrite elem_of_nil
  end.

(** ** The threshold loops *)

Section ThresholdLoop.

Variables (days : Z) (alert : Alert.t).

Lemma threshold_loop_app thresholds alerts :
  DeadlineChecker.threshold_loop days alert thresholds alerts
  = alerts ++ DeadlineChecker.threshold_loop days alert thresholds [].
Proof.
  induction thresholds as [|threshold rest IH]; simpl.
  - by rewrite app_nil_r.
  - by case_bool_decide.
Qed.

(** First match wins: one alert when [days] is in the list, none otherwise. *)
Lemma threshold_loop_nil thresholds :
  DeadlineChecker.threshold_loop days alert thresholds []
  = if bool_decide (days ∈ thresholds) then [alert] else [].
Proof.
  induction thresholds as [|threshold rest IH].
  - rewrite bool_decide_eq_false_2; [done | apply not_elem_of_nil].
  - cbn [DeadlineChecker.threshold_loop].
    destruct (decide (days = threshold)) as [->|Hne].
    + rewrite !bool_decide_eq_true_2; [done | apply elem_of_cons; by left | done].
    + rewrite (bool_decide_eq_false_2 (days = threshold)) by done.
      rewrite IH. apply (f_equal (fun b : bool => if b then [alert] else [])).
      apply bool_decide_ext. rewrite elem_of_cons. intuition.
Qed.

Lemma threshold_loop_length thresholds alerts :
  (length (DeadlineChecker.threshold_loop days alert thresholds alerts)
   <= S (length alerts))%nat.
Proof.
  rewrite threshold_loop_app, threshold_loop_nil, length_app.
  case_bool_decide; simpl; lia.
Qed.

End ThresholdLoop.

Lemma thresholds_milestone :
  getitem DeadlineChecker.ALERT_THRESHOLDS "milestone" = Ok [30; 15; 7; 3].
Proof. reflexivity. Qed.

Lemma thresholds_project_deadline :
  getitem DeadlineChecker.ALERT_THRESHOLDS "project_deadline" = Ok [60; 30; 15; 7].
Proof. reflexivity. Qed.

(** ** [check_project] never raises, and what it returns *)

Lemma check_deadline_eq today project alerts :
  DeadlineChecker.check_deadline today project alerts
  = Ok (alerts ++ deadline_alerts today project).
Proof.
  unfold deadline_alerts, DeadlineChecker.check_deadline.
  case_bool_decide; [|by rewrite app_nil_r].
  destruct (Project.days_until_deadline today project) as [days|];
    [|by rewrite app_nil_r].
  rewrite thresholds_project_deadline. cbn [mbind result_bind].
  by rewrite threshold_loop_app.
Qed.

Lemma check_milestone_eq today project milestone alerts :
  DeadlineChecker.check_milestone today project milestone alerts
  = Ok (alerts ++ milestone_alerts today project milestone).
Proof.
  unfold milestone_alerts, DeadlineChecker.check_milestone.
  destruct (_ || _); [by rewrite app_nil_r|].
  destruct (Milestone.days_until today milestone) as [days|];
    [|by rewrite app_nil_r].
  case_bool_decide; [done|].
  rewrite thresholds_milestone. cbn [mbind result_bind].
  by rewrite threshold_loop_app.
Qed.

Lemma check_milestones_eq today project milestones alerts :
  DeadlineChecker.check_milestones today project milestones alerts
  = Ok (alerts ++ concat (map (milestone_alerts today project) milestones)).
Proof.
  revert alerts. induction milestones as [|milestone rest IH]; intros alerts.
  - by rewrite app_nil_r.
  - cbn [DeadlineChecker.check_milestones map concat].
    rewrite check_milestone_eq. cbn [mbind result_bind].
    by rewrite IH, app_assoc.
Qed.

Lemma check_project_eq today project :
  DeadlineChecker.check_project today project
  = Ok (deadline_alerts today project
        ++ concat (map (milestone_alerts today project) (Project.milestones project))).
Proof.
  unfold DeadlineChecker.check_project.
  rewrite check_deadline_eq. cbn [mbind result_bind app].
  apply check_milestones_eq.
Qed.

Lemma check_project_total today project :
  DeadlineChecker.check_project today project = Ok (alerts_of today project).
Proof. unfold alerts_of. by rewrite check_project_eq. Qed.

Lemma alerts_of_eq today project :
  alerts_of today project
  = deadline_alerts today project
    ++ concat (map (milestone_alerts today project) (Project.milestones project)).
Proof. unfold alerts_of. by rewrite check_project_eq. Qed.

(** The deadline of the project: nothing for a concluded project, else one
    alert exactly on a threshold day. *)
Lemma deadline_alerts_eq today project :
  deadline_alerts today project
  = match Project.days_until_deadline today project with
    | Some days =>
        if bool_decide (days ∈ [60; 30; 15; 7])
        then [DeadlineChecker.project_deadline_alert project days] else []
    | None => []
    end.
Proof.
  unfold deadline_alerts, DeadlineChecker.check_deadline, Project.days_until_deadline.
  case_bool_decide as Hst.
  - rewrite bool_decide_eq_false_2 by done.
    rewrite thresholds_project_deadline. cbn [mbind result_bind].
    apply threshold_loop_nil.
  - by rewrite bool_decide_eq_true_2.
Qed.

(** One milestone: nothing when it is closed, one overdue alert when its date
    has passed, else one alert exactly on a threshold day. *)
Lemma milestone_alerts_eq today project milestone :
  milestone_alerts today project milestone
  = if Milestone.closed milestone then []
    else
      let days := Milestone.expected_date milestone - today in
      if bool_decide (days < 0)
      then [DeadlineChecker.milestone_overdue_alert project milestone days]
      else if bool_decide (days ∈ [30; 15; 7; 3])
      then [DeadlineChecker.milestone_approaching_alert project milestone days]
      else [].
Proof.
  unfold milestone_alerts, DeadlineChecker.check_milestone, Milestone.days_until,
    Milestone.closed.
  rewrite (orb_comm (bool_decide (Milestone.status milestone = "concluido"))).
  destruct (_ || _); [done|]. cbn zeta.
  case_bool_decide; [done|].
  rewrite thresholds_milestone. cbn [mbind result_bind].
  apply threshold_loop_nil.
Qed.

Lemma milestone_open milestone :
  Milestone.actual_date milestone = None ->
  Milestone.status milestone ≠ "concluido" ->
  Milestone.closed milestone = false.
Proof.
  intros Hact Hst. unfold Milestone.closed. rewrite Hact.
  rewrite !bool_decide_eq_false_2; [done | done | by intros [? ?]].
Qed.

Lemma milestones_no_project_deadline today project milestones :
  filter (fun alert => Alert.type alert = "project_deadline")
    (concat (map (milestone_alerts today project) milestones)) = [].
Proof.
  induction milestones as [|milestone rest IH]; [done|].
  cbn [map concat]. rewrite filter_app, IH, app_nil_r.
  rewrite milestone_alerts_eq. cbn zeta.
  destruct (Milestone.closed milestone); [done|].
  repeat case_bool_decide; try done; by rewrite filter_cons_False.
Qed.

(** ** Severity *)

Lemma severity_any_type (days : Z) (alert_type other_type : string) :
  DeadlineChecker._calculate_severity days other_type
  = DeadlineChecker._calculate_severity days alert_type.
Proof. reflexivity. Qed.

(** C5. The severity of a day count is CRITICO up to 7 days, ALTO above 7 and
    up to 15, MEDIO above 15 and up to 30, and BAIXO above 30; the alert type
    passed to [_calculate_severity] does not change the result, so a
    project-deadline alert and a milestone-approaching alert with the same day
    count have the same severity. *)
Theorem severity_banding (days : Z) (alert_type : string) :
  (days <= 7 -> DeadlineChecker._calculate_severity days alert_type = "CRITICO")
  /\ (7 < days <= 15 -> DeadlineChecker._calculate_severity days alert_type = "ALTO")
  /\ (15 < days <= 30 -> DeadlineChecker._calculate_severity days alert_type = "MEDIO")
  /\ (30 < days -> DeadlineChecker._calculate_severity days alert_type = "BAIXO")
  /\ (forall other_type : string,
        DeadlineChecker._calculate_severity days other_type
        = DeadlineChecker._calculate_severity days alert_type)
  /\ (forall project milestone,
        Alert.severity (DeadlineChecker.project_deadline_alert project days)
        = Alert.severity (DeadlineChecker.milestone_approaching_alert project milestone days)).
Proof.
  unfold DeadlineChecker._calculate_severity. cbn zeta.
  repeat split; try done; intros; repeat case_bool_decide; done || lia.
Qed.

Lemma severity_range (days : Z) (alert_type : string) :
  DeadlineChecker._calculate_severity days alert_type ∈ SEVERITIES.
Proof.
  unfold DeadlineChecker._calculate_severity, SEVERITIES. cbn zeta.
  repeat case_bool_decide; set_solver.
Qed.

(** ** Derived properties of the entities *)

Lemma is_overdue_iff today milestone :
  Milestone.is_overdue today milestone = true
  <-> Milestone.status milestone ≠ "concluido"
      /\ Milestone.actual_date milestone = None
      /\ today > Milestone.expected_date milestone.
Proof.
  unfold Milestone.is_overdue, Milestone.closed.
  destruct (Milestone.actual_date milestone) as [actual|]; cbn.
  - split; [done | by intros (_ & ? & _)].
  - case_bool_decide as Hst; cbn.
    + split; [done | by intros (? & _)].
    + rewrite bool_decide_eq_true. by intuition.
Qed.

Lemma any_overdue_iff today milestones :
  Project.any_overdue today milestones = true
  <-> exists milestone,
        milestone ∈ milestones /\ Milestone.is_overdue today milestone = true.
Proof.
  unfold Project.any_overdue. rewrite existsb_exists.
  by setoid_rewrite list_elem_of_In.
Qed.

Lemma is_at_risk_derived today project :
  Project.is_at_risk today project = true
  <-> (exists days, Project.days_until_deadline today project = Some days /\ days <= 15)
      \/ (exists milestone,
            milestone ∈ Project.milestones project
            /\ Milestone.is_overdue today milestone = true).
Proof.
  unfold Project.is_at_risk. rewrite <- any_overdue_iff.
  destruct (Project.days_until_deadline today project) as [days|].
  - case_bool_decide as Hd.
    + split; [intros _; left; by exists days | done].
    + split; [by right | intros [(d & [= <-] & Hle)|Hov]; [lia | done]].
  - split; [by right | by intros [(d & [=] & _)|Hov]].
Qed.

Lemma days_until_deadline_iff today project days :
  Project.days_until_deadline today project = Some days
  <-> Project.status project ≠ CONCLUIDO
      /\ days = Project.expected_end_date project - today.
Proof.
  unfold Project.days_until_deadline. case_bool_decide as Hst.
  - split; [done | by intros [? _]].
  - split; [by intros [= <-] | by intros [_ ->]].
Qed.

(** C6. A project is at risk exactly when its deadline is defined and at most
    15 days away, or one of its milestones is overdue. The deadline is
    defined exactly for a project that is not concluded, and is then the
    expected end date minus today; a milestone is overdue exactly when it is
    not concluded, has no completion date and its expected date is before
    today. So [is_at_risk] is decided by the state of the entity on the day:
    the project is not concluded and its expected end date is at most 15
    days after today, or one of its milestones is not concluded, has no
    completion date and was expected before today. No alert enters it. *)
Theorem is_at_risk_iff (today : date) (project : Project.t) :
  (Project.is_at_risk today project = true
   <-> (exists days,
          Project.days_until_deadline today project = Some days /\ days <= 15)
       \/ (exists milestone,
             milestone ∈ Project.milestones project
             /\ Milestone.is_overdue today milestone = true))
  /\ (forall days,
        Project.days_until_deadline today project = Some days
        <-> Project.status project ≠ CONCLUIDO
            /\ days = Project.expected_end_date project - today)
  /\ (forall milestone,
        Milestone.is_overdue today milestone = true
        <-> Milestone.status milestone ≠ "concluido"
            /\ Milestone.actual_date milestone = None
            /\ today > Milestone.expected_date milestone)
  /\ (Project.is_at_risk today project = true
      <-> (Project.status project ≠ CONCLUIDO
           /\ Project.expected_end_date project - today <= 15)
          \/ (exists milestone,
                milestone ∈ Project.milestones project
                /\ Milestone.status milestone ≠ "concluido"
                /\ Milestone.actual_date milestone = None
                /\ Milestone.expected_date milestone < today)).
Proof.
  split; [apply is_at_risk_derived|].
  split; [apply days_until_deadline_iff|].
  split; [intros milestone; apply is_overdue_iff|].
  rewrite is_at_risk_derived. split.
  - intros [(days & Hdays & Hle)|(milestone & Hin & Hover)].
    + apply days_until_deadline_iff in Hdays as [Hst ->]. by left.
    + apply is_overdue_iff in Hover as (Hst & Hact & Hgt).
      right. exists milestone. repeat split; [done | done | done | lia].
  - intros [[Hst Hle]|(milestone & Hin & Hst & Hact & Hlt)].
    + left. exists (Project.expected_end_date project - today).
      split; [by apply days_until_deadline_iff | done].
    + right. exists milestone. split; [done|].
      apply is_overdue_iff. repeat split; [done | done | lia].
Qed.

(** ** Alerts of [check_project] *)

(** The alerts of a project, split around one of its milestones. *)
Lemma check_project_split today project before milestone after :
  Project.milestones project = before ++ milestone :: after ->
  DeadlineChecker.check_project today project
  = Ok (deadline_alerts today project
        ++ concat (map (milestone_alerts today project) before)
        ++ milestone_alerts today project milestone
        ++ concat (map (milestone_alerts today project) after)).
Proof.
  intros Hms. rewrite check_project_eq, Hms.
  by rewrite map_app, concat_app.
Qed.

(** C2. A milestone without completion date, not concluded and expected
    before today contributes exactly one alert to the result of
    [check_project], between the alerts of the milestones before it and those
    of the milestones after it: a milestone_overdue alert of severity CRITICO
    whose day count is today minus the expected date. *)
Theorem overdue_milestone_alert (today : date) (project : Project.t)
    (before : list Milestone.t) (milestone : Milestone.t) (after : list Milestone.t) :
  Project.milestones project = before ++ milestone :: after ->
  Milestone.actual_date milestone = None ->
  Milestone.status milestone ≠ "concluido" ->
  Milestone.expected_date milestone < today ->
  exists alert,
    DeadlineChecker.check_project today project
    = Ok (deadline_alerts today project
          ++ concat (map (milestone_alerts today project) before)
          ++ [alert]
          ++ concat (map (milestone_alerts today project) after))
    /\ Alert.type alert = "milestone_overdue"
    /\ Alert.target alert = Project.name project +:+ " > " +:+ Milestone.title milestone
    /\ Alert.severity alert = "CRITICO"
    /\ Alert.days alert = today - Milestone.expected_date milestone
    /\ Milestone.days_until today milestone = Some (- Alert.days alert).
Proof.
  intros Hms Hact Hst Hlt.
  pose proof (milestone_open milestone Hact Hst) as Hopen.
  exists (DeadlineChecker.milestone_overdue_alert project milestone
            (Milestone.expected_date milestone - today)).
  split; [|repeat split].
  - rewrite (check_project_split _ _ _ _ _ Hms), (milestone_alerts_eq _ _ milestone).
    rewrite Hopen. cbn zeta. by rewrite bool_decide_eq_true_2 by lia.
  - cbn. lia.
  - unfold Milestone.days_until. rewrite Hopen. cbn. f_equal. lia.
Qed.

(** C3. For a milestone without completion date and not concluded: when its
    days_until is one of 30, 15, 7, 3 it contributes exactly one alert to the
    result of [check_project], a milestone_approaching alert with that day
    count and the severity of the banding; when its days_until is any other
    non-negative number it contributes no alert. *)
Theorem approaching_milestone_alert (today : date) (project : Project.t)
    (before : list Milestone.t) (milestone : Milestone.t) (after : list Milestone.t)
    (days : Z) :
  Project.milestones project = before ++ milestone :: after ->
  Milestone.actual_date milestone = None ->
  Milestone.status milestone ≠ "concluido" ->
  Milestone.days_until today milestone = Some days ->
  (days ∈ [30; 15; 7; 3] ->
   exists alert,
     DeadlineChecker.check_project today project
     = Ok (deadline_alerts today project
           ++ concat (map (milestone_alerts today project) before)
           ++ [alert]
           ++ concat (map (milestone_alerts today project) after))
     /\ Alert.type alert = "milestone_approaching"
     /\ Alert.target alert = Project.name project +:+ " > " +:+ Milestone.title milestone
     /\ Alert.days alert = days
     /\ Alert.severity alert = DeadlineChecker._calculate_severity days "milestone"
     /\ Alert.severity alert
        = (if bool_decide (days = 3 \/ days = 7) then "CRITICO"
           else if bool_decide (days = 15) then "ALTO" else "MEDIO"))
  /\ (0 <= days -> days ∉ [30; 15; 7; 3] ->
      DeadlineChecker.check_project today project
      = Ok (deadline_alerts today project
            ++ concat (map (milestone_alerts today project) before)
            ++ concat (map (milestone_alerts today project) after))).
Proof.
  intros Hms Hact Hst Hdays.
  pose proof (milestone_open milestone Hact Hst) as Hopen.
  unfold Milestone.days_until in Hdays. rewrite Hopen in Hdays.
  injection Hdays as Hdays.
  rewrite (check_project_split _ _ _ _ _ Hms), (milestone_alerts_eq _ _ milestone).
  rewrite Hopen, Hdays. cbn zeta. split.
  - intros Hin.
    exists (DeadlineChecker.milestone_approaching_alert project milestone days).
    split; [|repeat split].
    + rewrite bool_decide_eq_false_2, bool_decide_eq_true_2; [done | done |].
      list_mem. lia.
    + cbn. unfold DeadlineChecker._calculate_severity. cbn zeta.
      list_mem. repeat case_bool_decide; try done; lia.
  - intros Hge Hnin.
    by rewrite !bool_decide_eq_false_2 by (done || lia).
Qed.

(** C4. For a project that is not concluded, with its deadline [days] days
    away, [check_project] returns at most one project_deadline alert, and
    returns one exactly when [days] is one of 60, 30, 15, 7; the threshold
    loop stops at its first match, so it appends at most one alert whatever
    the list of thresholds; at 7 days the alert has severity CRITICO. *)
Theorem project_deadline_alert_once (today : date) (project : Project.t)
    (days : Z) :
  Project.status project ≠ CONCLUIDO ->
  Project.days_until_deadline today project = Some days ->
  exists alerts,
    DeadlineChecker.check_project today project = Ok alerts
    /\ let emitted := filter (fun alert => Alert.type alert = "project_deadline") alerts in
       (length emitted <= 1)%nat
       /\ (length emitted = 1%nat <-> days ∈ [60; 30; 15; 7])
       /\ (days ∈ [60; 30; 15; 7] ->
           emitted = [DeadlineChecker.project_deadline_alert project days])
       /\ (forall alert thresholds alerts0,
             (length (DeadlineChecker.threshold_loop days alert thresholds alerts0)
              <= S (length alerts0))%nat)
       /\ (days = 7 ->
           exists alert,
             emitted = [alert] /\ Alert.days alert = 7
             /\ Alert.severity alert = "CRITICO").
Proof.
  intros _ Hdays. eexists. split; [apply check_project_eq|]. cbn zeta.
  rewrite filter_app, milestones_no_project_deadline, app_nil_r.
  rewrite deadline_alerts_eq, Hdays.
  case_bool_decide as Hin.
  - rewrite filter_cons_True, filter_nil by done.
    split; [done|]. split; [done|]. split; [done|].
    split; [intros; apply threshold_loop_length|].
    intros ->. eexists. by repeat split.
  - rewrite filter_nil.
    split; [cbn; lia|]. split; [by split|]. split; [done|].
    split; [intros; apply threshold_loop_length|].
    intros ->. destruct Hin. list_mem. lia.
Qed.

(** C1, at a concluded project with an open milestone five days late:
    [check_project] does not return the empty list, it returns the
    milestone_overdue alert of that milestone. *)
Theorem concluded_project_overdue_milestone :
  let project :=
    sample_project CONCLUIDO 739038 [requirements] in
  Project.status project = CONCLUIDO
  /\ DeadlineChecker.check_project 738886 project
     = Ok [ {| Alert.type := "milestone_overdue";
               Alert.target := "Sistema X > Levantamento de requisitos";
               Alert.days := 5;
               Alert.severity := "CRITICO";
               Alert.message :=
                 "⚠️ MARCO ATRASADO: 'Levantamento de requisitos' estava para 2023-12-27 (5 dias de atraso)" |} ]
  /\ DeadlineChecker.check_project 738886 project ≠ Ok [].
Proof. cbv zeta. split; [done|]. split; [by vm_compute|]. by vm_compute. Qed.

(** What the status of a concluded project does suppress: the alert on the
    deadline of the project. The milestones are examined all the same. *)
Lemma concluded_project_alerts today project :
  Project.status project = CONCLUIDO ->
  DeadlineChecker.check_project today project
  = Ok (concat (map (milestone_alerts today project) (Project.milestones project))).
Proof.
  intros Hst. rewrite check_project_eq, deadline_alerts_eq.
  unfold Project.days_until_deadline. by rewrite bool_decide_eq_true_2.
Qed.

(** Every alert of [check_project] is as required. *)
Lemma project_deadline_alert_ok project days :
  alert_ok (DeadlineChecker.project_deadline_alert project days).
Proof.
  unfold alert_ok, KINDS. cbn. list_mem.
  split; [tauto|]. split; [apply severity_range|]. split; [discriminate|].
  intros _. apply severity_any_type.
Qed.

Lemma milestone_overdue_alert_ok project milestone days :
  alert_ok (DeadlineChecker.milestone_overdue_alert project milestone days).
Proof. unfold alert_ok, KINDS, SEVERITIES. cbn. list_mem. tauto. Qed.

Lemma milestone_approaching_alert_ok project milestone days :
  alert_ok (DeadlineChecker.milestone_approaching_alert project milestone days).
Proof.
  unfold alert_ok, KINDS. cbn. list_mem.
  split; [tauto|]. split; [apply severity_range|]. split; [discriminate|].
  intros _. apply severity_any_type.
Qed.

Lemma alerts_of_ok today project : Forall alert_ok (alerts_of today project).
Proof.
  rewrite alerts_of_eq. apply Forall_app. split.
  - rewrite deadline_alerts_eq.
    destruct (Project.days_until_deadline today project) as [days|]; [|done].
    case_bool_decide; [|done].
    apply Forall_singleton, project_deadline_alert_ok.
  - induction (Project.milestones project) as [|milestone rest IH]; [done|].
    cbn [map concat]. apply Forall_app. split; [|done].
    rewrite milestone_alerts_eq. cbn zeta.
    destruct (Milestone.closed milestone); [done|].
    repeat case_bool_decide; try done; apply Forall_singleton.
    + apply milestone_overdue_alert_ok.
    + apply milestone_approaching_alert_ok.
Qed.

Lemma all_alerts_ok today projects :
  Forall alert_ok (concat (map (alerts_of today) projects)).
Proof.
  apply Forall_concat, Forall_fmap, Forall_forall. intros project _.
  apply alerts_of_ok.
Qed.

(** ** [batch_check] *)

Lemma initial_buckets_lookup (k : string) :
  initial_buckets !! k = if bool_decide (k ∈ SEVERITIES) then Some [] else None.
Proof.
  unfold initial_buckets, SEVERITIES.
  case_bool_decide as Hk; list_mem.
  - destruct Hk as [Hk|[Hk|[Hk|[Hk|[]]]]]; subst k; reflexivity.
  - rewrite !lookup_insert_ne by (intros <-; tauto). apply lookup_empty.
Qed.

Lemma collect_eq today projects all_alerts risk_count :
  DeadlineChecker.collect today projects all_alerts risk_count
  = Ok (all_alerts ++ concat (map (alerts_of today) projects),
        (risk_count + length (filter (fun p => counted today p = true) projects))%nat).
Proof.
  revert all_alerts risk_count.
  induction projects as [|project rest IH]; intros all_alerts risk_count.
  - cbn. by rewrite app_nil_r, Nat.add_0_r.
  - cbn [DeadlineChecker.collect map concat].
    rewrite check_project_total. cbn [mbind result_bind]. cbn zeta.
    rewrite IH, app_assoc. fold (counted today project).
    rewrite filter_cons. destruct (counted today project) eqn:Hc.
    + rewrite decide_True by done. cbn [length]. do 2 f_equal. lia.
    + by rewrite decide_False by done.
Qed.

(** The grouping loop appends each alert to the bucket of its severity, and
    raises only on a severity that is not a key. *)
Lemma group_eq alerts (by_severity : gmap string (list Alert.t)) :
  Forall (fun alert => is_Some (by_severity !! Alert.severity alert)) alerts ->
  exists grouped : gmap string (list Alert.t),
    DeadlineChecker.group alerts by_severity = Ok grouped
    /\ forall k,
         grouped !! k
         = (fun bucket => bucket ++ filter (fun alert => Alert.severity alert = k) alerts)
           <$> by_severity !! k.
Proof.
  revert by_severity. induction alerts as [|alert rest IH]; intros by_severity Hkeys.
  - exists by_severity. split; [done|]. intros k.
    rewrite filter_nil. destruct (by_severity !! k); cbn; [|done].
    by rewrite app_nil_r.
  - apply Forall_cons in Hkeys as [[bucket Hbucket] Hrest].
    cbn [DeadlineChecker.group]. unfold getitem. rewrite Hbucket.
    cbn [mbind result_bind].
    destruct (IH (<[Alert.severity alert := bucket ++ [alert]]> by_severity))
      as (grouped & Hgrouped & Hlookup).
    { eapply Forall_impl; [exact Hrest|]. intros a [b Hb]. cbn beta.
      rewrite lookup_insert. case_decide; [by eexists|]. by exists b. }
    exists grouped. split; [done|]. intros k. rewrite Hlookup, lookup_insert.
    case_decide as Hk.
    + subst k. rewrite Hbucket, filter_cons_True by done.
      cbn [fmap option_fmap option_map]. by rewrite <- app_assoc.
    + rewrite filter_cons_False by done. done.
Qed.

Example group_unknown_severity :
  DeadlineChecker.group [Alert.mk "project_deadline" "X" 7 "URGENTE" ""] initial_buckets
  = Raise (KeyError "URGENTE").
Proof. reflexivity. Qed.

Lemma batch_check_eq today projects :
  exists grouped : gmap string (list Alert.t),
    DeadlineChecker.batch_check today projects
    = Ok {| Report.total_projects := length projects;
            Report.projects_at_risk :=
              length (filter (fun p => counted today p = true) projects);
            Report.alerts_by_severity := grouped;
            Report.all_alerts := concat (map (alerts_of today) projects);
            Report.generated_at := Date.isoformat today |}
    /\ forall k,
         grouped !! k
         = if bool_decide (k ∈ SEVERITIES)
           then Some (filter (fun alert => Alert.severity alert = k)
                        (concat (map (alerts_of today) projects)))
           else None.
Proof.
  unfold DeadlineChecker.batch_check. cbn zeta.
  rewrite collect_eq. cbn [mbind result_bind app Nat.add].
  fold initial_buckets.
  destruct (group_eq (concat (map (alerts_of today) projects)) initial_buckets)
    as (grouped & Hgrouped & Hlookup).
  { eapply Forall_impl; [apply all_alerts_ok|].
    intros alert (_ & Hsev & _). rewrite initial_buckets_lookup.
    by rewrite bool_decide_eq_true_2. }
  exists grouped. rewrite Hgrouped. split; [done|].
  intros k. rewrite Hlookup, initial_buckets_lookup. by case_bool_decide.
Qed.

(** Four filters on distinct severities rebuild the list, up to order. *)
Lemma severity_partition (alerts : list Alert.t) :
  Forall (fun alert => Alert.severity alert ∈ SEVERITIES) alerts ->
  alerts ≡ₚ filter (fun alert => Alert.severity alert = "CRITICO") alerts
            ++ filter (fun alert => Alert.severity alert = "ALTO") alerts
            ++ filter (fun alert => Alert.severity alert = "MEDIO") alerts
            ++ filter (fun alert => Alert.severity alert = "BAIXO") alerts.
Proof.
  induction 1 as [|alert rest Hsev _ IH]; [done|].
  unfold SEVERITIES in Hsev. list_mem.
  destruct Hsev as [Hs|[Hs|[Hs|[Hs|[]]]]];
    rewrite !filter_cons, !Hs; repeat case_decide; try done;
    cbn [app]; rewrite ?app_assoc, <- ?Permutation_middle, <- ?app_assoc;
    by constructor.
Qed.

(** C7. [batch_check] returns a report whose [all_alerts] is the
    concatenation, in the order of the projects, of the lists that
    [check_project] returns; [alerts_by_severity] has exactly the four
    severities as keys, and the bucket of a severity is [all_alerts] filtered
    on that severity, so the order inside a bucket is that of [all_alerts];
    an alert of [all_alerts] is in the bucket of its severity and in no other;
    and the four buckets together are a permutation of [all_alerts]. *)
Theorem batch_check_partition (today : date) (projects : list Project.t) :
  exists report,
    DeadlineChecker.batch_check today projects = Ok report
    /\ (forall project,
          DeadlineChecker.check_project today project = Ok (alerts_of today project))
    /\ Report.all_alerts report = concat (map (alerts_of today) projects)
    /\ (forall k,
          Report.alerts_by_severity report !! k
          = if bool_decide (k ∈ SEVERITIES)
            then Some (filter (fun alert => Alert.severity alert = k)
                         (Report.all_alerts report))
            else None)
    /\ (forall alert k,
          alert ∈ Report.all_alerts report ->
          (exists bucket,
             Report.alerts_by_severity report !! k = Some bucket /\ alert ∈ bucket)
          <-> k = Alert.severity alert)
    /\ Report.all_alerts report
       ≡ₚ Report.alerts_by_severity report !!! "CRITICO"
          ++ Report.alerts_by_severity report !!! "ALTO"
          ++ Report.alerts_by_severity report !!! "MEDIO"
          ++ Report.alerts_by_severity report !!! "BAIXO".
Proof.
  destruct (batch_check_eq today projects) as (grouped & Hreport & Hlookup).
  assert (Forall (fun alert => Alert.severity alert ∈ SEVERITIES)
            (concat (map (alerts_of today) projects))) as Hsev.
  { eapply Forall_impl; [apply all_alerts_ok|]. by intros alert (_ & ? & _). }
  eexists. split; [exact Hreport|]. cbn [Report.all_alerts Report.alerts_by_severity].
  split; [apply check_project_total|]. split; [done|]. split; [exact Hlookup|]. split.
  - intros alert k Hin. rewrite Hlookup. split.
    + intros (bucket & Hb & Hab). case_bool_decide; [|done].
      injection Hb as <-. by apply list_elem_of_filter in Hab as [-> _].
    + intros ->. rewrite bool_decide_eq_true_2.
      * eexists. split; [done|]. by apply list_elem_of_filter.
      * by eapply Forall_forall in Hsev.
  - rewrite !lookup_total_alt, !Hlookup. cbn. by apply severity_partition.
Qed.

Lemma days_until_deadline_open today project :
  Project.status project ≠ CONCLUIDO ->
  Project.days_until_deadline today project
  = Some (Project.expected_end_date project - today).
Proof.
  intros Hst. unfold Project.days_until_deadline.
  by rewrite bool_decide_eq_false_2.
Qed.

(** C8. [batch_check] returns a report whose [total_projects] is the number
    of projects given and whose [projects_at_risk] is the number of projects
    for which [check_project] returned an alert or [is_at_risk] is true. The
    two signals are independent: a project 10 days from its deadline raises
    no alert and is counted, and a project 60 days from its deadline raises
    an alert without being at risk. *)
Theorem batch_check_counts (today : date) (projects : list Project.t) :
  (exists report,
     DeadlineChecker.batch_check today projects = Ok report
     /\ Report.total_projects report = length projects
     /\ Report.projects_at_risk report
        = length (filter (fun project => counted today project = true) projects))
  /\ (forall project,
        counted today project = true
        <-> (exists alerts,
               DeadlineChecker.check_project today project = Ok alerts /\ alerts ≠ [])
            \/ Project.is_at_risk today project = true)
  /\ (let quiet := sample_project EM_ANDAMENTO (today + 10) [] in
      DeadlineChecker.check_project today quiet = Ok []
      /\ Project.is_at_risk today quiet = true
      /\ exists report,
           DeadlineChecker.batch_check today [quiet] = Ok report
           /\ Report.projects_at_risk report = 1%nat)
  /\ (let early := sample_project EM_ANDAMENTO (today + 60) [] in
      Project.is_at_risk today early = false
      /\ exists alert report,
           DeadlineChecker.check_project today early = Ok [alert]
           /\ DeadlineChecker.batch_check today [early] = Ok report
           /\ Report.projects_at_risk report = 1%nat).
Proof.
  split; [|split; [|split]].
  - destruct (batch_check_eq today projects) as (grouped & Hreport & _).
    eexists. split; [exact Hreport|]. done.
  - intros project. unfold counted. rewrite orb_true_iff.
    rewrite check_project_total.
    split; (intros [Hal|Hrisk]; [left|by right]).
    + exists (alerts_of today project). split; [done|].
      by destruct (alerts_of today project).
    + destruct Hal as (alerts & [= <-] & Hne).
      by destruct (alerts_of today project).
  - cbn zeta.
    assert (DeadlineChecker.check_project today
              (sample_project EM_ANDAMENTO (today + 10) []) = Ok []) as Hquiet.
    { rewrite check_project_eq, deadline_alerts_eq.
      rewrite days_until_deadline_open by done.
      cbn [Project.expected_end_date sample_project].
      by replace (today + 10 - today) with 10 by lia. }
    assert (Project.is_at_risk today
              (sample_project EM_ANDAMENTO (today + 10) []) = true) as Hrisk.
    { unfold Project.is_at_risk.
      rewrite days_until_deadline_open by done.
      cbn [Project.expected_end_date sample_project].
      by replace (today + 10 - today) with 10 by lia. }
    split; [done|]. split; [done|].
    destruct (batch_check_eq today [sample_project EM_ANDAMENTO (today + 10) []])
      as (grouped & Hreport & _).
    eexists. split; [exact Hreport|]. cbn [Report.projects_at_risk].
    rewrite filter_cons_True; [done|]. unfold counted. by rewrite Hrisk, orb_true_r.
  - cbn zeta.
    assert (DeadlineChecker.check_project today
              (sample_project EM_ANDAMENTO (today + 60) [])
            = Ok [DeadlineChecker.project_deadline_alert
                    (sample_project EM_ANDAMENTO (today + 60) []) 60]) as Hearly.
    { rewrite check_project_eq, deadline_alerts_eq.
      rewrite days_until_deadline_open by done.
      cbn [Project.expected_end_date sample_project].
      by replace (today + 60 - today) with 60 by lia. }
    split.
    { unfold Project.is_at_risk.
      rewrite days_until_deadline_open by done.
      cbn [Project.expected_end_date sample_project].
      by replace (today + 60 - today) with 60 by lia. }
    destruct (batch_check_eq today [sample_project EM_ANDAMENTO (today + 60) []])
      as (grouped & Hreport & _).
    eexists _, _. split; [exact Hearly|]. split; [exact Hreport|].
    cbn [Report.projects_at_risk].
    rewrite filter_cons_True; [done|]. unfold counted, alerts_of. by rewrite Hearly.
Qed.

(** ** Validation and totality *)

Lemma check_project_start_date today start project :
  DeadlineChecker.check_project today (Project.with_start_date start project)
  = DeadlineChecker.check_project today project.
Proof.
  rewrite !check_project_eq. reflexivity.
Qed.

(** C9. Constructing a project whose expected end date precedes its start
    date raises a validation error, and any other construction succeeds with
    the fields given. Evaluation validates nothing: [check_project] and
    [batch_check] return a result for every project, whatever its dates; the
    start date has no influence on the alerts, which are of the three kinds
    only. *)
Theorem end_before_start_rejected (fields : Project.t) :
  (Project.expected_end_date fields < Project.start_date fields ->
   Project.new fields
   = Raise (ValueError "Data de término deve ser após data de início"))
  /\ (Project.start_date fields <= Project.expected_end_date fields ->
      Project.new fields = Ok fields)
  /\ (forall today project,
        exists alerts,
          DeadlineChecker.check_project today project = Ok alerts
          /\ Forall (fun alert => Alert.type alert ∈ KINDS) alerts)
  /\ (forall today start project,
        DeadlineChecker.check_project today (Project.with_start_date start project)
        = DeadlineChecker.check_project today project)
  /\ (forall today projects,
        exists report, DeadlineChecker.batch_check today projects = Ok report).
Proof.
  unfold Project.new, Project.end_must_be_after_start.
  split; [|split; [|split; [|split]]].
  - intros Hlt. by rewrite bool_decide_eq_true_2.
  - intros Hle. rewrite bool_decide_eq_false_2 by lia. by destruct fields.
  - intros today project. exists (alerts_of today project).
    split; [apply check_project_total|].
    eapply Forall_impl; [apply alerts_of_ok|]. by intros alert [? _].
  - intros. apply check_project_start_date.
  - intros today projects.
    destruct (batch_check_eq today projects) as (grouped & Hreport & _).
    by eexists.
Qed.

(** C10. The severity of every alert that [check_project] returns is one of
    CRITICO, ALTO, MEDIO, BAIXO: CRITICO for an overdue milestone, and the
    value of the banding function, whose range is these four values, for the
    other alerts. So every alert that [batch_check] groups finds its bucket,
    and [batch_check] returns a report. *)
Theorem severity_closed (today : date) (project : Project.t)
    (projects : list Project.t) :
  (exists alerts,
     DeadlineChecker.check_project today project = Ok alerts
     /\ Forall (fun alert =>
                  Alert.severity alert ∈ SEVERITIES
                  /\ (Alert.type alert = "milestone_overdue" ->
                      Alert.severity alert = "CRITICO")
                  /\ (Alert.type alert ≠ "milestone_overdue" ->
                      Alert.severity alert
                      = DeadlineChecker._calculate_severity
                          (Alert.days alert) (Alert.type alert))) alerts)
  /\ (forall days alert_type,
        DeadlineChecker._calculate_severity days alert_type ∈ SEVERITIES)
  /\ (forall severity alert_type,
        severity ∈ SEVERITIES ->
        exists days, DeadlineChecker._calculate_severity days alert_type = severity)
  /\ (exists report,
        DeadlineChecker.batch_check today projects = Ok report
        /\ forall alert,
             alert ∈ Report.all_alerts report ->
             exists bucket,
               Report.alerts_by_severity report !! Alert.severity alert = Some bucket
               /\ alert ∈ bucket).
Proof.
  split; [|split; [|split]].
  - exists (alerts_of today project). split; [apply check_project_total|].
    eapply Forall_impl; [apply alerts_of_ok|]. by intros alert (_ & ? & ? & ?).
  - apply severity_range.
  - intros severity alert_type Hin. unfold SEVERITIES in Hin. list_mem.
    destruct Hin as [->|[->|[->|[->|[]]]]];
      [by exists 7 | by exists 15 | by exists 30 | by exists 31].
  - destruct (batch_check_eq today projects) as (grouped & Hreport & Hlookup).
    eexists. split; [exact Hreport|].
    cbn [Report.all_alerts Report.alerts_by_severity].
    intros alert Hin. rewrite Hlookup, bool_decide_eq_true_2.
    + eexists. split; [done|]. by apply list_elem_of_filter.
    + pose proof (all_alerts_ok today projects) as Hok.
      eapply Forall_forall in Hok as (_ & ? & _); done.
Qed.

(** ** Instances on the sample entities *)

Lemma overdue_milestone_alert_witness :
  exists alert,
    DeadlineChecker.check_project 738886 fixture
    = Ok (deadline_alerts 738886 fixture
          ++ concat (map (milestone_alerts 738886 fixture) [])
          ++ [alert]
          ++ concat (map (milestone_alerts 738886 fixture) [mvp]))
    /\ Alert.type alert = "milestone_overdue"
    /\ Alert.target alert = Project.name fixture +:+ " > " +:+ Milestone.title requirements
    /\ Alert.severity alert = "CRITICO"
    /\ Alert.days alert = 738886 - Milestone.expected_date requirements
    /\ Milestone.days_until 738886 requirements = Some (- Alert.days alert).
Proof.
  apply (overdue_milestone_alert 738886 fixture [] requirements [mvp]).
  - reflexivity.
  - reflexivity.
  - vm_compute. discriminate.
  - vm_compute. reflexivity.
Defined.

Lemma approaching_milestone_alert_witness :
  exists alert,
    DeadlineChecker.check_project 738886 fixture
    = Ok (deadline_alerts 738886 fixture
          ++ concat (map (milestone_alerts 738886 fixture) [requirements])
          ++ [alert]
          ++ concat (map (milestone_alerts 738886 fixture) []))
    /\ Alert.type alert = "milestone_approaching"
    /\ Alert.target alert = Project.name fixture +:+ " > " +:+ Milestone.title mvp
    /\ Alert.days alert = 7
    /\ Alert.severity alert = DeadlineChecker._calculate_severity 7 "milestone"
    /\ Alert.severity alert
       = (if bool_decide (7 = 3 \/ 7 = 7) then "CRITICO"
          else if bool_decide (7 = 15) then "ALTO" else "MEDIO").
Proof.
  apply (approaching_milestone_alert 738886 fixture [requirements] mvp [] 7).
  - reflexivity.
  - reflexivity.
  - vm_compute. discriminate.
  - reflexivity.
  - apply elem_of_cons. right. apply elem_of_cons. right.
    apply elem_of_cons. left. reflexivity.
Defined.

Lemma project_deadline_alert_once_witness :
  exists alerts,
    DeadlineChecker.check_project 738886 (sample_project EM_ANDAMENTO 738893 [])
    = Ok alerts
    /\ exists alert,
         filter (fun alert => Alert.type alert = "project_deadline") alerts = [alert]
         /\ Alert.days alert = 7
         /\ Alert.severity alert = "CRITICO".
Proof.
  destruct (project_deadline_alert_once 738886
              (sample_project EM_ANDAMENTO 738893 []) 7)
    as (alerts & Hcheck & _ & _ & _ & _ & Hseven).
  - vm_compute. discriminate.
  - reflexivity.
  - exists alerts. split; [exact Hcheck | apply Hseven; reflexivity].
Defined.

Lemma severity_banding_witness :
  DeadlineChecker._calculate_severity 7 "project" = "CRITICO"
  /\ DeadlineChecker._calculate_severity 15 "milestone" = "ALTO"
  /\ DeadlineChecker._calculate_severity 30 "milestone" = "MEDIO"
  /\ DeadlineChecker._calculate_severity 60 "project" = "BAIXO".
Proof.
  split; [|split; [|split]].
  - destruct (severity_banding 7 "project") as (H & _). apply H. lia.
  - destruct (severity_banding 15 "milestone") as (_ & H & _). apply H. lia.
  - destruct (severity_banding 30 "milestone") as (_ & _ & H & _). apply H. lia.
  - destruct (severity_banding 60 "project") as (_ & _ & _ & H & _). apply H. lia.
Defined.

Lemma end_before_start_rejected_witness :
  Project.new (sample_project EM_ANDAMENTO 738855 [])
  = Raise (ValueError "Data de término deve ser após data de início")
  /\ Project.new (sample_project EM_ANDAMENTO 738856 [])
     = Ok (sample_project EM_ANDAMENTO 738856 []).
Proof.
  split.
  - destruct (end_before_start_rejected (sample_project EM_ANDAMENTO 738855 []))
      as (H & _).
    apply H. vm_compute. reflexivity.
  - destruct (end_before_start_rejected (sample_project EM_ANDAMENTO 738856 []))
      as (_ & H & _).
    apply H. vm_compute. discriminate.
Defined.

(** The scenarios of the tests, on 2024-01-01. *)
Example fixture_alerts :
  DeadlineChecker.check_project 738886 fixture
  = Ok [DeadlineChecker.milestone_overdue_alert fixture requirements (-5);
        DeadlineChecker.milestone_approaching_alert fixture mvp 7].
Proof. vm_compute. reflexivity. Qed.

Example fixture_at_risk : Project.is_at_risk 738886 fixture = true.
Proof. vm_compute. reflexivity. Qed.

Example concluded_project_no_alerts :
  DeadlineChecker.check_project 738886 (sample_project CONCLUIDO 738500 []) = Ok [].
Proof. vm_compute. reflexivity. Qed.

(** * Further properties of the engine *)

(** ** Milestones and their alerts *)

Lemma closed_milestone_alerts today project milestone :
  Milestone.closed milestone = true ->
  milestone_alerts today project milestone = [].
Proof. intros Hc. by rewrite milestone_alerts_eq, Hc. Qed.

Lemma check_milestone_nil today project milestone :
  DeadlineChecker.check_milestone today project milestone []
  = Ok (milestone_alerts today project milestone).
Proof. by rewrite check_milestone_eq. Qed.

(** X1. The two notions of a late milestone agree: [is_overdue], which
    [is_at_risk] reads, is true exactly when the loop body of [check_project]
    appends a milestone_overdue alert for the milestone. *)
Theorem overdue_alert_iff_is_overdue (today : date) (project : Project.t)
    (milestone : Milestone.t) :
  Milestone.is_overdue today milestone = true
  <-> exists alert,
        DeadlineChecker.check_milestone today project milestone [] = Ok [alert]
        /\ Alert.type alert = "milestone_overdue".
Proof.
  rewrite check_milestone_nil, milestone_alerts_eq.
  unfold Milestone.is_overdue. cbn zeta.
  destruct (Milestone.closed milestone).
  - split; [done | by intros (alert & [=] & _)].
  - rewrite bool_decide_eq_true. split.
    + intros Hgt. rewrite bool_decide_eq_true_2 by lia. by eexists.
    + intros (alert & Heq & Hty). case_bool_decide as Hlt; [lia|].
      case_bool_decide; [|done]. by injection Heq as <-.
Qed.

(** X2. A project with an overdue milestone never passes silently:
    [check_project] returns at least one alert. So in [batch_check] the
    disjunct [project.is_at_risk] adds only the projects whose deadline is at
    most 15 days away: a single project is counted exactly when it raised an
    alert or its deadline is that close. *)
Theorem overdue_milestone_raises_alert (today : date) (project : Project.t) :
  exists alerts report,
    DeadlineChecker.check_project today project = Ok alerts
    /\ DeadlineChecker.batch_check today [project] = Ok report
    /\ (Project.any_overdue today (Project.milestones project) = true -> alerts ≠ [])
    /\ (Report.projects_at_risk report = 1%nat
        <-> alerts ≠ []
            \/ exists days,
                 Project.days_until_deadline today project = Some days /\ days <= 15).
Proof.
  destruct (batch_check_eq today [project]) as (grouped & Hreport & _).
  exists (alerts_of today project). eexists.
  split; [apply check_project_total|]. split; [exact Hreport|].
  assert (Project.any_overdue today (Project.milestones project) = true ->
          alerts_of today project ≠ []) as Hov.
  { rewrite any_overdue_iff. intros (milestone & Hin & Hover).
    rewrite alerts_of_eq. intros Hnil.
    apply app_eq_nil in Hnil as [_ Hnil].
    apply list_elem_of_split in Hin as (before & after & Hms).
    rewrite Hms, map_app, concat_app in Hnil.
    apply app_eq_nil in Hnil as [_ Hnil]. cbn [map concat] in Hnil.
    apply app_eq_nil in Hnil as [Hnil _].
    rewrite milestone_alerts_eq in Hnil. unfold Milestone.is_overdue in Hover.
    destruct (Milestone.closed milestone); [done|]. cbn zeta in Hnil.
    apply bool_decide_eq_true in Hover.
    by rewrite bool_decide_eq_true_2 in Hnil by lia. }
  split; [exact Hov|]. cbn [Report.projects_at_risk].
  rewrite filter_cons, filter_nil. unfold counted, Project.is_at_risk.
  destruct (alerts_of today project) as [|alert rest] eqn:Hal; cbn [DeadlineChecker.truthy orb].
  - destruct (Project.days_until_deadline today project) as [days|].
    + case_bool_decide as Hd.
      * rewrite decide_True by done. split; [|done]. intros _. right. by exists days.
      * destruct (Project.any_overdue _ _); [by destruct Hov|].
        rewrite decide_False by done. split; [done|].
        intros [?|(d & [= <-] & ?)]; [done | lia].
    + destruct (Project.any_overdue _ _); [by destruct Hov|].
      rewrite decide_False by done. split; [done|].
      by intros [?|(d & [=] & ?)].
  - rewrite decide_True by done. split; [|done]. intros _. by left.
Qed.

(** X3. The day count of every alert is positive: a project-deadline alert
    carries one of 60, 30, 15, 7, a milestone-approaching alert one of 30,
    15, 7, 3, and an overdue alert the number of days of delay, at least 1. *)
Theorem alert_days_by_kind (today : date) (project : Project.t) :
  exists alerts,
    DeadlineChecker.check_project today project = Ok alerts
    /\ Forall (fun alert =>
                 0 < Alert.days alert
                 /\ (Alert.type alert = "project_deadline" ->
                     Alert.days alert ∈ [60; 30; 15; 7])
                 /\ (Alert.type alert = "milestone_approaching" ->
                     Alert.days alert ∈ [30; 15; 7; 3])) alerts.
Proof.
  exists (alerts_of today project). split; [apply check_project_total|].
  rewrite alerts_of_eq. apply Forall_app. split.
  - rewrite deadline_alerts_eq.
    destruct (Project.days_until_deadline today project) as [days|]; [|done].
    case_bool_decide as Hin; [|done]. apply Forall_singleton. cbn.
    split; [list_mem; lia|]. split; [done | discriminate].
  - induction (Project.milestones project) as [|milestone rest IH]; [done|].
    cbn [map concat]. apply Forall_app. split; [|done].
    rewrite milestone_alerts_eq. cbn zeta.
    destruct (Milestone.closed milestone); [done|].
    case_bool_decide as Hlt; [|case_bool_decide as Hin]; [| |done];
      apply Forall_singleton; cbn.
    + split; [lia|]. split; discriminate.
    + split; [list_mem; lia|]. split; [discriminate | done].
Qed.

(** X4. The severity of an alert of [check_project] tells its day count:
    BAIXO only for the project deadline 60 days ahead, MEDIO only 30 days
    ahead, ALTO only 15 days ahead, and CRITICO for an overdue milestone or
    7 or 3 days ahead. *)
Theorem severity_tells_days (today : date) (project : Project.t) :
  exists alerts,
    DeadlineChecker.check_project today project = Ok alerts
    /\ Forall (fun alert =>
                 (Alert.severity alert = "BAIXO"
                  <-> Alert.type alert = "project_deadline" /\ Alert.days alert = 60)
                 /\ (Alert.severity alert = "MEDIO"
                     <-> Alert.type alert ≠ "milestone_overdue" /\ Alert.days alert = 30)
                 /\ (Alert.severity alert = "ALTO"
                     <-> Alert.type alert ≠ "milestone_overdue" /\ Alert.days alert = 15)
                 /\ (Alert.severity alert = "CRITICO"
                     <-> Alert.type alert = "milestone_overdue"
                         \/ Alert.days alert = 7 \/ Alert.days alert = 3)) alerts.
Proof.
  exists (alerts_of today project). split; [apply check_project_total|].
  rewrite alerts_of_eq. apply Forall_app. split.
  - rewrite deadline_alerts_eq.
    destruct (Project.days_until_deadline today project) as [days|]; [|done].
    case_bool_decide as Hin; [|done]. apply Forall_singleton. list_mem.
    destruct Hin as [->|[->|[->|[->|[]]]]]; cbn;
      repeat split; solve [done | intros; intuition (discriminate || lia)].
  - induction (Project.milestones project) as [|milestone rest IH]; [done|].
    cbn [map concat]. apply Forall_app. split; [|done].
    rewrite milestone_alerts_eq. cbn zeta.
    destruct (Milestone.closed milestone); [done|].
    case_bool_decide as Hlt; [|case_bool_decide as Hin]; [| |done];
      apply Forall_singleton.
    + cbn. repeat split; solve [done | intros; intuition (discriminate || lia)].
    + list_mem. destruct Hin as [Hd|[Hd|[Hd|[Hd|[]]]]]; rewrite Hd; cbn;
        repeat split; solve [done | intros; intuition (discriminate || lia)].
Qed.

Lemma milestone_alerts_length today project milestone :
  (length (milestone_alerts today project milestone)
   <= if Milestone.closed milestone then 0 else 1)%nat.
Proof.
  rewrite milestone_alerts_eq. cbn zeta.
  destruct (Milestone.closed milestone); [done|].
  repeat case_bool_decide; cbn; lia.
Qed.

(** X5. [check_project] returns at most one alert for the project, none when
    it is concluded, and at most one for each of its milestones that is
    still open. *)
Theorem alert_count_bound (today : date) (project : Project.t) :
  exists alerts,
    DeadlineChecker.check_project today project = Ok alerts
    /\ (length alerts
        <= (if bool_decide (Project.status project = CONCLUIDO) then 0 else 1)
           + length (filter (fun milestone => Milestone.closed milestone = false)
                       (Project.milestones project)))%nat.
Proof.
  exists (alerts_of today project). split; [apply check_project_total|].
  rewrite alerts_of_eq, length_app. apply Nat.add_le_mono.
  - rewrite deadline_alerts_eq. unfold Project.days_until_deadline.
    case_bool_decide; [done|]. case_bool_decide; cbn; lia.
  - induction (Project.milestones project) as [|milestone rest IH]; [done|].
    cbn [map concat]. rewrite length_app, filter_cons.
    pose proof (milestone_alerts_length today project milestone) as Hm.
    destruct (Milestone.closed milestone).
    + rewrite decide_False by done. lia.
    + rewrite decide_True by done. cbn [length]. lia.
Qed.

(** X6. What a concluded project does suppress: when every milestone of a
    concluded project is itself concluded or has a completion date,
    [check_project] returns the empty list and the project is not at risk,
    whatever the dates. *)
Theorem concluded_project_closed_milestones (today : date) (project : Project.t) :
  Project.status project = CONCLUIDO ->
  Forall (fun milestone =>
            Milestone.status milestone = "concluido"
            \/ is_Some (Milestone.actual_date milestone))
    (Project.milestones project) ->
  DeadlineChecker.check_project today project = Ok []
  /\ Project.is_at_risk today project = false.
Proof.
  intros Hst Hclosed.
  assert (Forall (fun milestone => Milestone.closed milestone = true)
            (Project.milestones project)) as Hc.
  { eapply Forall_impl; [exact Hclosed|]. intros milestone Hm. cbn beta in Hm.
    unfold Milestone.closed. apply orb_true_iff.
    destruct Hm; [right | left]; by apply bool_decide_eq_true. }
  split.
  - rewrite check_project_eq, deadline_alerts_eq.
    unfold Project.days_until_deadline. rewrite bool_decide_eq_true_2 by done.
    cbn [app]. f_equal. clear Hclosed.
    induction (Project.milestones project) as [|milestone rest IH]; [done|].
    apply Forall_cons in Hc as [Hm Hrest]. cbn [map concat].
    rewrite closed_milestone_alerts by done. by apply IH.
  - unfold Project.is_at_risk, Project.days_until_deadline.
    rewrite bool_decide_eq_true_2 by done. unfold Project.any_overdue.
    clear Hclosed.
    induction (Project.milestones project) as [|milestone rest IH]; [done|].
    apply Forall_cons in Hc as [Hm Hrest]. cbn [existsb].
    unfold Milestone.is_overdue at 1. rewrite Hm. by apply IH.
Qed.

(** X7. There is no alert for a missed project deadline: once fewer than 7
    days remain, and after the deadline has passed, [check_project] returns
    no project_deadline alert for an open project, while [is_at_risk] stays
    true. *)
Theorem late_project_no_deadline_alert (today : date) (project : Project.t) :
  Project.status project ≠ CONCLUIDO ->
  Project.expected_end_date project - today < 7 ->
  (exists alerts,
     DeadlineChecker.check_project today project = Ok alerts
     /\ Forall (fun alert => Alert.type alert ≠ "project_deadline") alerts)
  /\ Project.is_at_risk today project = true.
Proof.
  intros Hst Hlt. split.
  - exists (alerts_of today project). split; [apply check_project_total|].
    apply Forall_forall. intros alert Hin Hty.
    assert (alert ∈ filter (fun alert => Alert.type alert = "project_deadline")
              (alerts_of today project)) as Hf by by apply list_elem_of_filter.
    rewrite alerts_of_eq, filter_app, milestones_no_project_deadline in Hf.
    rewrite app_nil_r, deadline_alerts_eq, days_until_deadline_open in Hf by done.
    rewrite bool_decide_eq_false_2 in Hf by (list_mem; lia).
    by apply elem_of_nil in Hf.
  - unfold Project.is_at_risk. rewrite days_until_deadline_open by done.
    by rewrite bool_decide_eq_true_2 by lia.
Qed.

(** ** Reports *)

(** X8. [batch_check] distributes over the concatenation of two portfolios:
    the counters of the report add up, [all_alerts] is the concatenation of
    the two lists, and so is every bucket of [alerts_by_severity]. *)
Theorem batch_check_app (today : date) (projects1 projects2 : list Project.t) :
  exists report report1 report2,
    DeadlineChecker.batch_check today (projects1 ++ projects2) = Ok report
    /\ DeadlineChecker.batch_check today projects1 = Ok report1
    /\ DeadlineChecker.batch_check today projects2 = Ok report2
    /\ Report.total_projects report
       = (Report.total_projects report1 + Report.total_projects report2)%nat
    /\ Report.projects_at_risk report
       = (Report.projects_at_risk report1 + Report.projects_at_risk report2)%nat
    /\ Report.all_alerts report
       = Report.all_alerts report1 ++ Report.all_alerts report2
    /\ (forall k,
          Report.alerts_by_severity report !!! k
          = Report.alerts_by_severity report1 !!! k
            ++ Report.alerts_by_severity report2 !!! k)
    /\ Report.generated_at report = Report.generated_at report1.
Proof.
  destruct (batch_check_eq today (projects1 ++ projects2)) as (grouped & Hr & Hl).
  destruct (batch_check_eq today projects1) as (grouped1 & Hr1 & Hl1).
  destruct (batch_check_eq today projects2) as (grouped2 & Hr2 & Hl2).
  eexists _, _, _. split; [exact Hr|]. split; [exact Hr1|]. split; [exact Hr2|].
  cbn [Report.total_projects Report.projects_at_risk Report.all_alerts
       Report.alerts_by_severity Report.generated_at].
  split; [apply length_app|].
  split; [by rewrite filter_app, length_app|].
  split; [by rewrite map_app, concat_app|].
  split; [|done].
  intros k. rewrite !lookup_total_alt, Hl, Hl1, Hl2.
  case_bool_decide; [|done]. cbn.
  by rewrite map_app, concat_app, filter_app.
Qed.

Lemma alerts_of_length today project :
  (length (alerts_of today project) <= 1 + length (Project.milestones project))%nat.
Proof.
  rewrite alerts_of_eq, length_app. apply Nat.add_le_mono.
  - rewrite deadline_alerts_eq.
    destruct (Project.days_until_deadline today project); [|cbn; lia].
    case_bool_decide; cbn; lia.
  - induction (Project.milestones project) as [|milestone rest IH]; [done|].
    cbn [map concat]. rewrite length_app.
    pose proof (milestone_alerts_length today project milestone) as Hm.
    revert Hm. destruct (Milestone.closed milestone); cbn [length]; lia.
Qed.

(** X9. The counters of a report are consistent: [projects_at_risk] never
    exceeds [total_projects], the sizes of the four buckets add up to the
    number of alerts, and there are at most as many alerts as projects and
    milestones together. *)
Theorem report_counters (today : date) (projects : list Project.t) :
  exists report,
    DeadlineChecker.batch_check today projects = Ok report
    /\ (Report.projects_at_risk report <= Report.total_projects report)%nat
    /\ length (Report.all_alerts report)
       = (length (Report.alerts_by_severity report !!! "CRITICO")
          + length (Report.alerts_by_severity report !!! "ALTO")
          + length (Report.alerts_by_severity report !!! "MEDIO")
          + length (Report.alerts_by_severity report !!! "BAIXO"))%nat
    /\ (length (Report.all_alerts report)
        <= Report.total_projects report
           + length (concat (map Project.milestones projects)))%nat.
Proof.
  destruct (batch_check_eq today projects) as (grouped & Hreport & Hlookup).
  eexists. split; [exact Hreport|].
  cbn [Report.total_projects Report.projects_at_risk Report.all_alerts
       Report.alerts_by_severity].
  split; [apply length_filter|]. split.
  - rewrite !lookup_total_alt, !Hlookup.
    rewrite !bool_decide_eq_true_2 by (unfold SEVERITIES; list_mem; tauto).
    cbn [default from_option]. unfold id.
    assert (Forall (fun alert => Alert.severity alert ∈ SEVERITIES)
              (concat (map (alerts_of today) projects))) as Hsev.
    { eapply Forall_impl; [apply all_alerts_ok|]. by intros alert (_ & ? & _). }
    apply severity_partition, Permutation_length in Hsev.
    rewrite !length_app in Hsev. lia.
  - clear Hreport Hlookup.
    induction projects as [|project rest IH]; [done|].
    cbn [map concat length]. rewrite !length_app.
    pose proof (alerts_of_length today project). lia.
Qed.

(** * The notifier *)

(** ** The project of an alert *)

Lemma before_no_gt (s : string) :
  ">"%char ∉ String.list_ascii_of_string s -> Notifier.before " > " s = s.
Proof.
  induction s as [|c rest IH]; intros Hgt; [done|].
  cbn [String.list_ascii_of_string] in Hgt. apply not_elem_of_cons in Hgt as [Hc Hrest].
  cbn [Notifier.before].
  replace (String.prefix " > " (String c rest)) with false.
  - by rewrite IH.
  - cbn [String.prefix]. destruct (Ascii.ascii_dec " " c) as [<-|]; [|done].
    destruct rest as [|c2 rest2]; [done|].
    cbn [String.list_ascii_of_string] in Hrest.
    apply not_elem_of_cons in Hrest as [Hc2 _].
    cbn [String.prefix]. by destruct (Ascii.ascii_dec ">" c2).
Qed.

Lemma before_separator (name rest : string) :
  ">"%char ∉ String.list_ascii_of_string name ->
  Notifier.before " > " (name +:+ " > " +:+ rest) = name.
Proof.
  induction name as [|c name' IH]; intros Hgt.
  - change ("" +:+ " > " +:+ rest) with (String " " (String ">" (String " " rest))).
    cbn [Notifier.before String.prefix].
    destruct (Ascii.ascii_dec " " " "); [|done].
    destruct (Ascii.ascii_dec ">" ">"); [|done].
    by destruct rest.
  - cbn [String.list_ascii_of_string] in Hgt.
    apply not_elem_of_cons in Hgt as [Hc Hrest].
    change (Notifier.before " > " (String c name' +:+ " > " +:+ rest))
      with (if String.prefix " > " (String c (name' +:+ " > " +:+ rest)) then ""
            else String c (Notifier.before " > " (name' +:+ " > " +:+ rest))).
    replace (String.prefix " > " (String c (name' +:+ " > " +:+ rest))) with false.
    + by rewrite IH.
    + cbn [String.prefix]. destruct (Ascii.ascii_dec " " c) as [<-|]; [|done].
      destruct name' as [|c2 name2]; [done|].
      cbn [String.list_ascii_of_string] in Hrest.
      apply not_elem_of_cons in Hrest as [Hc2 _].
      change (String c2 name2 +:+ " > " +:+ rest)
        with (String c2 (name2 +:+ " > " +:+ rest)).
      cbn [String.prefix]. by destruct (Ascii.ascii_dec ">" c2).
Qed.

Lemma group_loop_one_project (name : string) (alerts group : list Alert.t) :
  Forall (fun alert => Notifier.project_name alert = name) alerts ->
  Notifier.group_loop alerts [(name, group)] = [(name, group ++ alerts)].
Proof.
  revert group. induction alerts as [|alert rest IH]; intros group Hall.
  - by rewrite app_nil_r.
  - apply Forall_cons in Hall as [Hname Hrest].
    cbn [Notifier.group_loop Notifier.add_alert]. rewrite Hname.
    rewrite bool_decide_eq_true_2 by done.
    rewrite IH by done. by rewrite <- app_assoc.
Qed.

(** X10. When the name of a project has no character [>], the notifier files
    every alert of [check_project] under that name: the text of the target
    before [" > "] is the name of the project, and the alerts of the project
    make a single group. *)
Theorem alerts_grouped_under_project (today : date) (project : Project.t) :
  ">"%char ∉ String.list_ascii_of_string (Project.name project) ->
  exists alerts,
    DeadlineChecker.check_project today project = Ok alerts
    /\ Forall (fun alert => Notifier.project_name alert = Project.name project) alerts
    /\ (alerts ≠ [] ->
        Notifier.group_loop alerts [] = [(Project.name project, alerts)]).
Proof.
  intros Hgt. exists (alerts_of today project).
  split; [apply check_project_total|].
  assert (Forall (fun alert => Notifier.project_name alert = Project.name project)
            (alerts_of today project)) as Hall.
  { rewrite alerts_of_eq. apply Forall_app. split.
    - rewrite deadline_alerts_eq.
      destruct (Project.days_until_deadline today project) as [days|]; [|done].
      case_bool_decide; [|done]. apply Forall_singleton.
      by apply before_no_gt.
    - induction (Project.milestones project) as [|milestone rest IH]; [done|].
      cbn [map concat]. apply Forall_app. split; [|done].
      rewrite milestone_alerts_eq. cbn zeta.
      destruct (Milestone.closed milestone); [done|].
      repeat case_bool_decide; try done; apply Forall_singleton;
        by apply before_separator. }
  split; [exact Hall|]. intros Hne.
  destruct (alerts_of today project) as [|alert rest]; [done|].
  apply Forall_cons in Hall as [Hname Hrest].
  cbn [Notifier.group_loop Notifier.add_alert]. rewrite Hname.
  by rewrite group_loop_one_project.
Qed.

(** A name with the separator in it: the alert is filed under the text
    before the separator, which is not the name of the project. *)
Example separator_in_project_name :
  Notifier.project_name
    (DeadlineChecker.project_deadline_alert
       (Project.mk "P" "Fase 1 > Fase 2" None "CGIN" [] EM_ANDAMENTO BAIXO 1 8 [] 0 0 [] [])
       7)
  = "Fase 1".
Proof. reflexivity. Qed.

(** ** Grouping by project *)

Lemma add_alert_keys name alert (d : list (string * list Alert.t)) :
  (Notifier.add_alert name alert d).*1
  = if bool_decide (name ∈ d.*1) then d.*1 else d.*1 ++ [name].
Proof.
  induction d as [|[k v] rest IH].
  - by rewrite bool_decide_eq_false_2 by apply not_elem_of_nil.
  - cbn [Notifier.add_alert]. rewrite !fmap_cons. cbn [fst].
    destruct (decide (k = name)) as [->|Hk].
    + rewrite !bool_decide_eq_true_2; [done | apply elem_of_cons; by left | done].
    + rewrite (bool_decide_eq_false_2 (k = name)) by done.
      rewrite fmap_cons, IH. cbn [fst].
      destruct (decide (name ∈ rest.*1)) as [Hin|Hin].
      * rewrite !bool_decide_eq_true_2; [done | apply elem_of_cons; by right | done].
      * rewrite !bool_decide_eq_false_2; [done | | done].
        rewrite elem_of_cons. intros [?|?]; congruence.
Qed.

Lemma add_alert_NoDup name alert (d : list (string * list Alert.t)) :
  NoDup (d.*1) -> NoDup ((Notifier.add_alert name alert d).*1).
Proof.
  intros Hd. rewrite add_alert_keys. case_bool_decide as Hin; [done|].
  apply NoDup_app. split; [done|]. split; [|apply NoDup_singleton].
  intros k Hk ->%list_elem_of_singleton. done.
Qed.

Lemma add_alert_map name alert (d : list (string * list Alert.t)) :
  (list_to_map (Notifier.add_alert name alert d) : gmap string (list Alert.t))
  = <[name := default [] ((list_to_map d : gmap string (list Alert.t)) !! name)
              ++ [alert]]>
      (list_to_map d).
Proof.
  induction d as [|[k v] rest IH]; [done|].
  cbn [Notifier.add_alert]. case_bool_decide as Hk.
  - subst k. rewrite !list_to_map_cons.
    by rewrite lookup_insert_eq, insert_insert_eq.
  - rewrite !list_to_map_cons.
    rewrite IH, lookup_insert_ne by done. by apply insert_insert_ne.
Qed.

Lemma add_alert_concat name alert (d : list (string * list Alert.t)) :
  concat ((Notifier.add_alert name alert d).*2) ≡ₚ concat (d.*2) ++ [alert].
Proof.
  induction d as [|[k v] rest IH]; [done|].
  cbn [Notifier.add_alert]. case_bool_decide.
  - rewrite !fmap_cons. cbn [snd concat]. rewrite <- !app_assoc.
    apply Permutation_app_head, Permutation_app_comm.
  - rewrite !fmap_cons. cbn [snd concat].
    by rewrite IH, app_assoc.
Qed.

Lemma group_loop_spec (alerts seen : list Alert.t) (d : list (string * list Alert.t)) :
  NoDup (d.*1) ->
  (forall name,
     (list_to_map d : gmap string (list Alert.t)) !! name
     = nonempty (filter (fun alert => Notifier.project_name alert = name) seen)) ->
  concat (d.*2) ≡ₚ seen ->
  let grouped := Notifier.group_loop alerts d in
  NoDup (grouped.*1)
  /\ (forall name,
        (list_to_map grouped : gmap string (list Alert.t)) !! name
        = nonempty (filter (fun alert => Notifier.project_name alert = name)
                      (seen ++ alerts)))
  /\ concat (grouped.*2) ≡ₚ seen ++ alerts.
Proof.
  revert seen d. induction alerts as [|alert rest IH]; intros seen d Hnd Hmap Hperm.
  - cbn. by rewrite app_nil_r.
  - cbn [Notifier.group_loop]. cbn zeta.
    replace (seen ++ alert :: rest) with ((seen ++ [alert]) ++ rest)
      by by rewrite <- app_assoc.
    apply IH.
    + by apply add_alert_NoDup.
    + intros name. rewrite add_alert_map, filter_app, filter_cons, filter_nil.
      destruct (decide (Notifier.project_name alert = name)) as [<-|Hne].
      * rewrite lookup_insert_eq, Hmap.
        by destruct (filter _ seen).
      * by rewrite lookup_insert_ne, Hmap, app_nil_r.
    + by rewrite add_alert_concat, Hperm.
Qed.

(** X11. The grouping loop of [send_alerts] makes one group for each project
    name met, each name once: the group of a name is the list of the alerts
    filed under it, in their order, and is never empty; together the groups
    hold every alert exactly once. *)
Theorem alerts_by_project_partition (alerts : list Alert.t) :
  let alerts_by_project := Notifier.group_loop alerts [] in
  NoDup (alerts_by_project.*1)
  /\ (forall name group,
        (name, group) ∈ alerts_by_project
        <-> group ≠ []
            /\ group = filter (fun alert => Notifier.project_name alert = name) alerts)
  /\ concat (alerts_by_project.*2) ≡ₚ alerts.
Proof.
  destruct (group_loop_spec alerts [] []) as (Hnd & Hmap & Hperm);
    [apply NoDup_nil_2 | done | done |].
  cbn zeta. split; [done|]. split; [|done].
  intros name group. rewrite elem_of_list_to_map by done.
  rewrite Hmap. cbn [app].
  destruct (filter _ alerts) as [|alert rest] eqn:Hf; cbn [nonempty].
  - split; [done | by intros [? ->]].
  - split; [by intros [= <-] | by intros [_ ->]].
Qed.

(** ** Sending *)

(** X12. [send_alerts] never reports an alert as sent, and never reaches
    [requests.post]: without alerts it returns zeros; with alerts, all of
    them are counted as failed with a single error, the missing webhook when
    none is configured, and otherwise the [NameError] that building the
    message raises. *)
Theorem send_alerts_never_sends (self : Notifier.t)
    (post : string -> json -> Notifier.post_result)
    (alerts : list Alert.t) (projects : list Project.t) :
  let results := Notifier.send_alerts self post alerts projects in
  Notifier.sent results = 0%nat
  /\ Notifier.failed results = length alerts
  /\ Notifier.errors results
     = match alerts, Notifier.teams_webhook self with
       | [], _ => []
       | _ :: _, Some (String _ _) =>
           ["Erro ao enviar para Teams: name 'datetime' is not defined"]
       | _ :: _, _ => ["Webhook do Teams não configurado"]
       end.
Proof.
  unfold Notifier.send_alerts. destruct alerts as [|alert rest]; [done|].
  cbn [DeadlineChecker.truthy negb]. cbn zeta.
  destruct (Notifier.teams_webhook self) as [[|c url]|]; done.
Qed.

(** * The field parsers *)

(** ** Strings *)

Example strip_ascii : Str.strip (Str.of_bytes [32; 32; 97; 32; 98; 32; 9]%N) = "a b".
Proof. vm_compute. reflexivity. Qed.

(** U+00A0, x, U+3000 and a space; then a grave, whose second byte is that
    of U+00A0, and a space. *)
Example strip_unicode :
  Str.strip (Str.of_bytes [194; 160; 120; 227; 128; 128; 32]%N) = "x"
  /\ Str.strip (Str.of_bytes [195; 160; 32]%N) = Str.of_bytes [195; 160]%N.
Proof. split; vm_compute; reflexivity. Qed.

Example split_trailing_separator :
  Str.split "," "a,b," = ["a"; "b"; ""] /\ Str.split "," "" = [""].
Proof. split; reflexivity. Qed.

Example parse_tags_example :
  SharePointClient._parse_tags (Some " infra, ,dados ,, rede interna ")
  = ["infra"; "dados"; "rede interna"].
Proof. vm_compute. reflexivity. Qed.

Example parse_team_example :
  SharePointClient._parse_team (SharePointClient.TeamStr "a@x.br; b@x.br,c@x.br;")
  = ["a@x.br"; "b@x.br"; "c@x.br"].
Proof. vm_compute. reflexivity. Qed.

(** A property of strings that every tail of a string inherits is kept by
    [lstrip]. *)
Lemma lstrip_preserves (P : string -> Prop) :
  (forall a r, P (String a r) -> P r) ->
  forall s, P s -> P (Str.lstrip s).
Proof.
  intros Htail s. remember (String.length s) as n eqn:Hn.
  revert s Hn. induction n as [n IH] using lt_wf_ind. intros s Hn Hs.
  destruct s as [|a r1]; [done|]. cbn [Str.lstrip String.length] in *.
  destruct (Str.space1 a).
  { eapply IH; [|reflexivity|by eapply Htail]. lia. }
  destruct r1 as [|b r2]; [done|]. cbn [String.length] in Hn.
  destruct (Str.space2 a b).
  { eapply IH; [|reflexivity|by eapply Htail, Htail]. lia. }
  destruct r2 as [|c r3]; [done|]. cbn [String.length] in Hn.
  destruct (Str.space3 a b c); [|done].
  eapply IH; [|reflexivity|by eapply Htail, Htail, Htail]. lia.
Qed.

Lemma lstrip_idem (s : string) : Str.lstrip (Str.lstrip s) = Str.lstrip s.
Proof.
  remember (String.length s) as n eqn:Hn.
  revert s Hn. induction n as [n IH] using lt_wf_ind. intros s Hn.
  destruct s as [|a r1]; [done|].
  destruct (Str.space1 a) eqn:H1.
  { cbn [Str.lstrip]. rewrite H1. eapply IH; [|reflexivity]. cbn in Hn. lia. }
  destruct r1 as [|b r2].
  { cbn [Str.lstrip]. rewrite H1. cbn [Str.lstrip]. by rewrite H1. }
  destruct (Str.space2 a b) eqn:H2.
  { cbn [Str.lstrip]. rewrite H1, H2. eapply IH; [|reflexivity]. cbn in Hn. lia. }
  destruct r2 as [|c r3].
  { cbn [Str.lstrip]. rewrite H1, H2. cbn [Str.lstrip]. by rewrite H1, H2. }
  destruct (Str.space3 a b c) eqn:H3.
  { cbn [Str.lstrip]. rewrite H1, H2, H3. eapply IH; [|reflexivity]. cbn in Hn. lia. }
  cbn [Str.lstrip]. rewrite H1, H2, H3. cbn [Str.lstrip]. by rewrite H1, H2, H3.
Qed.

Lemma rstrip_idem (s : string) : Str.rstrip (Str.rstrip s) = Str.rstrip s.
Proof.
  induction s as [|a r IH]; [done|]. cbn [Str.rstrip]. cbn zeta.
  destruct (Str.is_space (String a (Str.rstrip r))) eqn:Hsp; [done|].
  cbn [Str.rstrip]. cbn zeta. by rewrite IH, Hsp.
Qed.

Lemma rstrip_stable_tail (a : ascii) (r : string) :
  Str.rstrip (String a r) = String a r -> Str.rstrip r = r.
Proof.
  cbn [Str.rstrip]. cbn zeta.
  destruct (Str.is_space (String a (Str.rstrip r))); [done|]. by intros [= ->].
Qed.

Lemma rstrip_chars (c : ascii) (s : string) :
  c ∈ String.list_ascii_of_string (Str.rstrip s) -> c ∈ String.list_ascii_of_string s.
Proof.
  induction s as [|a r IH]; [done|]. cbn [Str.rstrip]. cbn zeta.
  destruct (Str.is_space (String a (Str.rstrip r))).
  - by intros ?%elem_of_nil.
  - cbn [String.list_ascii_of_string]. rewrite !elem_of_cons. intuition.
Qed.

Lemma strip_idem (s : string) : Str.strip (Str.strip s) = Str.strip s.
Proof.
  unfold Str.strip.
  assert (Str.rstrip (Str.lstrip (Str.rstrip s)) = Str.lstrip (Str.rstrip s)) as ->.
  { apply (lstrip_preserves (fun t => Str.rstrip t = t)).
    - apply rstrip_stable_tail.
    - apply rstrip_idem. }
  apply lstrip_idem.
Qed.

Lemma strip_chars (c : ascii) (s : string) :
  c ∉ String.list_ascii_of_string s -> c ∉ String.list_ascii_of_string (Str.strip s).
Proof.
  intros Hc. unfold Str.strip.
  apply (lstrip_preserves (fun t => c ∉ String.list_ascii_of_string t)).
  - intros a r Har Hr. apply Har. cbn [String.list_ascii_of_string].
    apply elem_of_cons. by right.
  - intros Hr. by apply Hc, rstrip_chars.
Qed.

Lemma not_in_tail (c a : ascii) (r : string) :
  c ∉ String.list_ascii_of_string (String a r) -> c ∉ String.list_ascii_of_string r.
Proof. cbn [String.list_ascii_of_string]. by intros [_ ?]%not_elem_of_cons. Qed.

Lemma split_chars (sep c : ascii) (s : string) :
  Forall (fun piece =>
            (sep ∉ String.list_ascii_of_string piece)
            /\ (c ∉ String.list_ascii_of_string s ->
                c ∉ String.list_ascii_of_string piece))
    (Str.split sep s).
Proof.
  induction s as [|a rest IH].
  - apply Forall_singleton. split; [apply not_elem_of_nil | done].
  - assert (Forall (fun piece =>
                      (sep ∉ String.list_ascii_of_string piece)
                      /\ (c ∉ String.list_ascii_of_string (String a rest) ->
                          c ∉ String.list_ascii_of_string piece))
              (Str.split sep rest)) as IH'.
    { eapply Forall_impl; [exact IH|]. intros piece [Hsep Hc]. split; [done|].
      intros Hs. by eapply Hc, not_in_tail. }
    clear IH. cbn [Str.split]. case_bool_decide as Ha.
    + apply Forall_cons. split; [|done].
      split; [apply not_elem_of_nil | intros _; apply not_elem_of_nil].
    + destruct (Str.split sep rest) as [|piece pieces].
      * apply Forall_singleton. cbn [String.list_ascii_of_string]. split.
        -- rewrite not_elem_of_cons. split; [congruence | apply not_elem_of_nil].
        -- intros [Hca _]%not_elem_of_cons.
           rewrite not_elem_of_cons. split; [done | apply not_elem_of_nil].
      * apply Forall_cons in IH' as [[Hsep Hc] IH']. apply Forall_cons.
        split; [|done]. split.
        -- cbn [String.list_ascii_of_string]. rewrite not_elem_of_cons.
           split; [congruence | done].
        -- intros Hs. pose proof (Hc Hs) as Hp.
           cbn [String.list_ascii_of_string] in Hs |- *.
           apply not_elem_of_cons in Hs as [Hca _].
           rewrite not_elem_of_cons. by split.
Qed.

Lemma stripped_nonempty_clean (c : ascii) (s : string) :
  Forall (fun t =>
            clean t
            /\ (c ∉ String.list_ascii_of_string s ->
                c ∉ String.list_ascii_of_string t))
    (Str.stripped_nonempty (Str.split "," s)).
Proof.
  unfold Str.stripped_nonempty.
  apply Forall_forall. intros t [Hne Hin]%list_elem_of_filter.
  apply list_elem_of_fmap in Hin as (piece & -> & Hpiece).
  pose proof (split_chars "," c s) as Hsplit.
  eapply Forall_forall in Hsplit as [Hsep Hc]; [|exact Hpiece].
  split; [split; [done|split]|].
  - by apply strip_chars.
  - apply strip_idem.
  - intros Hs. by apply strip_chars, Hc.
Qed.

(** ** [_parse_tags] and [_parse_team] *)

(** X13. [_parse_tags] returns the empty list on [None] and on the empty
    string, and every tag that it returns is clean: it is not empty, it has
    no comma, and it has no whitespace at either end, that is, stripping it
    again changes nothing. *)
Theorem parse_tags_clean (value : option string) :
  SharePointClient._parse_tags None = []
  /\ SharePointClient._parse_tags (Some "") = []
  /\ Forall clean (SharePointClient._parse_tags value).
Proof.
  split; [done|]. split; [done|].
  destruct value as [[|a rest]|]; [done| |done].
  eapply Forall_impl; [apply (stripped_nonempty_clean "," (String a rest))|].
  by intros t [? _].
Qed.



Lemma split_no_separator (sep : ascii) (t : string) :
  sep ∉ String.list_ascii_of_string t -> Str.split sep t = [t].
Proof.
  induction t as [|a rest IH]; [done|]. cbn [String.list_ascii_of_string].
  intros [Ha Hr]%not_elem_of_cons. cbn [Str.split].
  rewrite bool_decide_eq_false_2 by congruence. by rewrite IH.
Qed.

Lemma split_app_separator (sep : ascii) (t rest : string) :
  sep ∉ String.list_ascii_of_string t ->
  Str.split sep (t +:+ String sep rest) = t :: Str.split sep rest.
Proof.
  induction t as [|a t' IH].
  - intros _. change ("" +:+ String sep rest) with (String sep rest).
    cbn [Str.split]. by rewrite bool_decide_eq_true_2.
  - cbn [String.list_ascii_of_string]. intros [Ha Hr]%not_elem_of_cons.
    change (String a t' +:+ String sep rest) with (String a (t' +:+ String sep rest)).
    cbn [Str.split]. rewrite bool_decide_eq_false_2 by congruence.
    by rewrite IH.
Qed.

Lemma split_concat (t : string) (ts : list string) :
  Forall (fun t => ","%char ∉ String.list_ascii_of_string t) (t :: ts) ->
  Str.split "," (String.concat "," (t :: ts)) = t :: ts.
Proof.
  revert t. induction ts as [|t2 ts IH]; intros t Hall.
  - apply Forall_cons in Hall as [Ht _]. cbn [String.concat].
    by apply split_no_separator.
  - apply Forall_cons in Hall as [Ht Hrest].
    change (String.concat "," (t :: t2 :: ts))
      with (t +:+ String "," (String.concat "," (t2 :: ts))).
    rewrite split_app_separator by done. by rewrite IH.
Qed.

Lemma stripped_nonempty_id (tags : list string) :
  Forall clean tags -> Str.stripped_nonempty tags = tags.
Proof.
  unfold Str.stripped_nonempty. induction 1 as [|t ts (Hne & _ & Hstrip) _ IH]; [done|].
  cbn [map]. rewrite filter_cons, Hstrip, decide_True by done. by rewrite IH.
Qed.

(** X15. Parsing undoes joining: a list of clean tags joined with commas is
    parsed back to the same list, the empty list included. *)
Theorem parse_tags_join (tags : list string) :
  Forall clean tags ->
  SharePointClient._parse_tags (Some (String.concat "," tags)) = tags.
Proof.
  intros Hclean. destruct tags as [|t ts]; [done|].
  assert (Str.split "," (String.concat "," (t :: ts)) = t :: ts) as Hsplit.
  { apply split_concat. eapply Forall_impl; [exact Hclean|]. by intros ? (_ & ? & _). }
  unfold SharePointClient._parse_tags.
  destruct (String.concat "," (t :: ts)) as [|a rest] eqn:Hjoin.
  - cbn in Hsplit. injection Hsplit as <- <-.
    apply Forall_cons in Hclean as [(Hne & _) _]. done.
  - rewrite Hsplit. by apply stripped_nonempty_id.
Qed.

(** ** Instances *)

Lemma concluded_project_closed_milestones_witness :
  let project :=
    sample_project CONCLUIDO 738500
      [Milestone.new "M1" "Levantamento de requisitos" 738400 (Some 738420) "pendente";
       Milestone.new "M2" "Desenvolvimento MVP" 738450 None "concluido"] in
  DeadlineChecker.check_project 738886 project = Ok []
  /\ Project.is_at_risk 738886 project = false.
Proof.
  cbv zeta. apply concluded_project_closed_milestones.
  - reflexivity.
  - apply Forall_cons. split; [right; by eexists|].
    apply Forall_cons. split; [by left | apply Forall_nil_2].
Defined.

Lemma late_project_no_deadline_alert_witness :
  (exists alerts,
     DeadlineChecker.check_project 738886 (sample_project EM_ANDAMENTO 738880 [])
     = Ok alerts
     /\ Forall (fun alert => Alert.type alert ≠ "project_deadline") alerts)
  /\ Project.is_at_risk 738886 (sample_project EM_ANDAMENTO 738880 []) = true.
Proof.
  apply late_project_no_deadline_alert.
  - vm_compute. discriminate.
  - vm_compute. reflexivity.
Defined.

Lemma alerts_grouped_under_project_witness :
  exists alerts,
    DeadlineChecker.check_project 738886 fixture = Ok alerts
    /\ Forall (fun alert => Notifier.project_name alert = Project.name fixture) alerts
    /\ (alerts ≠ [] ->
        Notifier.group_loop alerts [] = [(Project.name fixture, alerts)]).
Proof.
  apply alerts_grouped_under_project.
  apply (bool_decide_unpack _). vm_compute. exact I.
Defined.

Lemma parse_tags_join_witness :
  SharePointClient._parse_tags (Some (String.concat "," ["infra"; "rede interna"]))
  = ["infra"; "rede interna"].
Proof.
  apply parse_tags_join.
  repeat constructor; try discriminate; try reflexivity;
    apply (bool_decide_unpack _); vm_compute; exact I.
Defined.
